(** * Cascade: streaming voice-activity segmentation

    A shallow embedding of [cascade/stream/state_machine.py] and
    [cascade/stream/processor.py], and the properties of the session
    pipeline proved over it.

    Conventions of the embedding.
    - Python [int] is [Z]; [bytes] is [list byte]; [str] is [string];
      the oracle's dict-shaped verdict is a [gmap string Z].
    - Python [float] (timestamps, durations, rates) is [Q].  No theorem
      below depends on rounding: the floats they evaluate (frame
      timestamps, elapsed times of whole seconds and the statistics derived
      from them) are integers far below 2^53, on which binary64 arithmetic
      is exact.
    - A method that mutates [self] is a function from the object before
      the call to the value returned and the object after it.
    - A raised exception is a constructor of the result type.
    - [time.time()] is a stream of readings [time_time : nat -> Q]; the
      number of readings taken so far is threaded through the calls.
    - Logging is not modelled, except the health warnings of [get_stats],
      which are returned as a list. *)

From Stdlib Require Import ZArith QArith Lia Strings.Byte.
From stdpp Require Import base option list list_numbers gmap strings.

Set Default Proof Using "Type".
Local Open Scope Z_scope.

(** ** Shared types ([cascade/stream/types.py], [cascade/types/errors.py]) *)

Module VADState.
Inductive t := IDLE | COLLECTING.

#[global] Instance eq_dec : EqDecision t.
Proof. solve_decision. Defined.
End VADState.

Module SystemState.
Inductive t := IDLE | COLLECTING | PROCESSING | RESPONDING.

#[global] Instance eq_dec : EqDecision t.
Proof. solve_decision. Defined.
End SystemState.

Inductive ErrorCode :=
| INVALID_CONFIG
| INITIALIZATION_FAILED
| INVALID_STATE
| PROCESSING_FAILED
| INVALID_INPUT
| AUDIO_CORRUPTION
| CLEANUP_FAILED.

Inductive ErrorSeverity := HIGH.

(** [CascadeError(message, code, severity, context)]: the message and the
    context mapping are left out, the code and the severity are kept. *)
Record CascadeError := {
  error_code : ErrorCode;
  severity : ErrorSeverity
}.

(** The spec's error taxonomy, read off the error codes. *)
Definition InputError (e : CascadeError) : Prop :=
  error_code e = INVALID_INPUT \/ error_code e = AUDIO_CORRUPTION.

Definition ProcessingError (e : CascadeError) : Prop :=
  error_code e = PROCESSING_FAILED.

Definition StateError (e : CascadeError) : Prop :=
  error_code e = INVALID_STATE.

(** The iterator's answer: [None], [{'start': n}] or [{'end': n}]. *)
Abbreviation VadResult := (option (gmap string Z)).

Record AudioFrame := {
  frame_id : Z;
  audio_data : list byte;
  timestamp_ms : Q;
  vad_result : VadResult
}.

Record InterruptionEvent := {
  event_timestamp_ms : Q;
  system_state : SystemState.t
}.

Record SpeechSegment := {
  segment_id : Z;
  frames : list AudioFrame;
  start_timestamp_ms : Q;
  end_timestamp_ms : Q;
  duration_ms : Q
}.

Record CascadeResult := {
  result_type : string;
  frame : option AudioFrame;
  segment : option SpeechSegment;
  interruption : option InterruptionEvent;
  processing_time_ms : Q;
  instance_id : string
}.

(** The two attribute assignments [result.processing_time_ms = ...] and
    [result.instance_id = ...] of [process_frame]. *)
Definition stamp (r : CascadeResult) (elapsed_ms : Q) (id : string)
  : CascadeResult :=
  Build_CascadeResult (result_type r) (frame r) (segment r) (interruption r)
                      elapsed_ms id.

(** Modelled from the spec: the property [CascadeResult.is_speech_segment]
    of [types.py], a segment-level result being the one tagged "segment". *)
Definition is_speech_segment (r : CascadeResult) : bool :=
  bool_decide (result_type r = "segment"%string).

Record InterruptionConfig := {
  enable_interruption : bool;
  min_interval_ms : Q
}.

Record Config := {
  vad_threshold : Q;
  min_silence_duration_ms : Z;
  speech_pad_ms : Z;
  interruption_config : InterruptionConfig
}.

(** ** SpeechCollector ([cascade/stream/collector.py]) *)

Module SpeechCollector.

Record t := {
  segment_id : Z;
  frames : list AudioFrame
}.

Definition new (segment_id : Z) : t :=
  {| segment_id := segment_id; frames := [] |}.

(** Modelled from the spec: [start_collection(frame)] "begins a new segment
    containing frame as its first member". *)
Definition start_collection (c : t) (f : AudioFrame) : t :=
  {| segment_id := segment_id c; frames := [f] |}.

(** Modelled from the spec: [add_frame(frame)] "appends". *)
Definition add_frame (c : t) (f : AudioFrame) : t :=
  {| segment_id := segment_id c; frames := frames c ++ [f] |}.

(** Modelled from the spec: [end_collection(frame)] "appends frame as the
    last member and finalizes the segment, returning it"; the segment's
    start and end timestamps "are the first/last member frame timestamps"
    and "duration_ms = end - start". *)
Definition end_collection (c : t) (f : AudioFrame) : SpeechSegment :=
  let members := frames c ++ [f] in
  let first := default f (head members) in
  Build_SpeechSegment (segment_id c) members
    (timestamp_ms first) (timestamp_ms f)
    (timestamp_ms f - timestamp_ms first)%Q.

End SpeechCollector.

(** ** InterruptionManager ([cascade/stream/interruption_manager.py])

    The state machine and the processor only use the manager through its
    constructor and the four methods below; the manager itself is a parameter of the
    development.  [on_speech_start] returns the interruption event, if
    any, and the manager after the call. *)

Class InterruptionManager (M : Type) := {
  manager_new : InterruptionConfig -> M;
  on_speech_start : M -> Q -> option InterruptionEvent * M;
  on_speech_end : M -> Q -> M;
  get_state : M -> SystemState.t;
  set_state : M -> SystemState.t -> M
}.

(** ** VADStateMachine ([cascade/stream/state_machine.py]) *)

Module VADStateMachine.

Record t (M : Type) := mk {
  instance_id : string;
  state : VADState.t;
  current_collector : option SpeechCollector.t;
  segment_counter : Z;
  interruption_manager : option M
}.

Arguments mk {M}.
Arguments instance_id {M}.
Arguments state {M}.
Arguments current_collector {M}.
Arguments segment_counter {M}.
Arguments interruption_manager {M}.

Section Methods.
Context {M : Type} `{!InterruptionManager M}.
Variable time_time : nat -> Q.

(** [__init__] *)
Definition new (instance_id : string) (interruption_manager : option M) : t M :=
  mk instance_id VADState.IDLE None 0 interruption_manager.

(** [_handle_no_speech].  The test [self.current_collector] is the test
    that the attribute is not [None]. *)
Definition _handle_no_speech (self : t M) (frame : AudioFrame)
  : option CascadeResult * t M :=
  match state self, current_collector self with
  | VADState.COLLECTING, Some collector =>
      (None,
       mk (instance_id self) (state self)
          (Some (SpeechCollector.add_frame collector frame))
          (segment_counter self) (interruption_manager self))
  | _, _ =>
      (Some (Build_CascadeResult "frame" (Some frame) None None 0%Q
                                 (instance_id self)),
       self)
  end.

(** [_handle_speech_start] *)
Definition _handle_speech_start (self : t M) (frame : AudioFrame)
  : option CascadeResult * t M :=
  let '(interruption_event, manager, refused) :=
    match interruption_manager self with
    | Some m =>
        let '(ev, m') := on_speech_start m (timestamp_ms frame) in
        (ev, Some m', bool_decide (get_state m' <> SystemState.COLLECTING))
    | None => (None, None, false)
    end in
  if refused then
    (None,
     mk (instance_id self) (state self) (current_collector self)
        (segment_counter self) manager)
  else if bool_decide (state self = VADState.COLLECTING) then
    (None,
     mk (instance_id self) (state self) (current_collector self)
        (segment_counter self) manager)
  else
    let segment_counter' := segment_counter self + 1 in
    let collector :=
      SpeechCollector.start_collection
        (SpeechCollector.new segment_counter') frame in
    let self' :=
      mk (instance_id self) VADState.COLLECTING (Some collector)
         segment_counter' manager in
    match interruption_event with
    | Some ev =>
        (Some (Build_CascadeResult "interruption" None None (Some ev) 0%Q
                                   (instance_id self)),
         self')
    | None => (None, self')
    end.

(** [_handle_speech_end] *)
Definition _handle_speech_end (self : t M) (frame : AudioFrame)
  : option CascadeResult * t M :=
  let manager :=
    match interruption_manager self with
    | Some m => Some (on_speech_end m (timestamp_ms frame))
    | None => None
    end in
  match state self, current_collector self with
  | VADState.COLLECTING, Some collector =>
      let segment := SpeechCollector.end_collection collector frame in
      (Some (Build_CascadeResult "segment" None (Some segment) None 0%Q
                                 (instance_id self)),
       mk (instance_id self) VADState.IDLE None (segment_counter self) manager)
  | _, _ =>
      (None,
       mk (instance_id self) (state self) (current_collector self)
          (segment_counter self) manager)
  end.

(** [_handle_vad_result]: the verdict is told apart by key membership. *)
Definition _handle_vad_result (self : t M) (frame : AudioFrame)
  : option CascadeResult * t M :=
  match vad_result frame with
  | None => _handle_no_speech self frame
  | Some d =>
      if bool_decide (is_Some (d !! "start"%string)) then
        _handle_speech_start self frame
      else if bool_decide (is_Some (d !! "end"%string)) then
        _handle_speech_end self frame
      else
        _handle_no_speech self frame
  end.

(** [process_frame].  Two clock readings are taken; the result, when there
    is one, is stamped with the elapsed time and the instance id. *)
Definition process_frame (self : t M) (frame : AudioFrame) (clock : nat)
  : option CascadeResult * t M * nat :=
  let start_time := time_time clock in
  let '(result, self') := _handle_vad_result self frame in
  let processing_time_ms := ((time_time (S clock) - start_time) * 1000)%Q in
  (match result with
   | Some r => Some (stamp r processing_time_ms (instance_id self'))
   | None => None
   end,
   self', S (S clock)).

(** [reset].  The open collector, if any, is reset and then dropped. *)
Definition reset (self : t M) : t M :=
  mk (instance_id self) VADState.IDLE None 0 (interruption_manager self).

(** [is_collecting] *)
Definition is_collecting (self : t M) : bool :=
  bool_decide (state self = VADState.COLLECTING).

End Methods.

Section Feed.
Context {M : Type} `{!InterruptionManager M}.
Variable time_time : nat -> Q.

(** Frames handed to [process_frame] one after the other, as the loop of
    the processor does, and the results returned, in order. *)
Fixpoint feed (self : t M) (frames : list AudioFrame) (clock : nat)
  : list CascadeResult * t M * nat :=
  match frames with
  | [] => ([], self, clock)
  | f :: rest =>
      let '(result, self', clock') := process_frame time_time self f clock in
      let '(results, self'', clock'') := feed self' rest clock' in
      (match result with
       | Some r => r :: results
       | None => results
       end,
       self'', clock'')
  end.

(** The manager lets the speech start of this frame in: after its
    [on_speech_start] its state is [COLLECTING].  Without a manager every
    start is let in. *)
Definition lets_in (self : t M) (f : AudioFrame) : Prop :=
  match interruption_manager self with
  | Some m =>
      get_state (snd (on_speech_start m (timestamp_ms f)))
      = SystemState.COLLECTING
  | None => True
  end.

End Feed.

(** A collector is open exactly when the local state is [COLLECTING]. *)
Definition coherent {M : Type} (self : t M) : Prop :=
  state self = VADState.COLLECTING <-> is_Some (current_collector self).

(** The open collector, if any, holds at least the frame that started its
    segment: [add_frame] and [end_collection] are only called on a started
    collection. *)
Definition started {M : Type} (self : t M) : Prop :=
  forall c, current_collector self = Some c -> SpeechCollector.frames c <> [].

End VADStateMachine.

(** ** FrameAlignedBuffer ([cascade/buffer/frame_aligned_buffer.py]) *)

(** [AUDIO_FRAME_SIZE] of [types.py]: 512 samples, two bytes each. *)
Definition AUDIO_FRAME_SIZE : Z := 512.

Module FrameAlignedBuffer.

Record t := mk {
  buffer : list byte;
  max_buffer_samples : Z
}.

Definition frame_bytes : nat := Z.to_nat (AUDIO_FRAME_SIZE * 2).

Definition new (max_buffer_samples : Z) : t := mk [] max_buffer_samples.

(** Modelled from the spec: [write(bytes)] "appends arbitrary-length byte
    data"; the buffer "enforces an upper bound on total buffered-but-unframed
    bytes", and "exceeding it is a fault the caller must be able to observe":
    [None] is that fault, raised before anything is stored. *)
Definition write (self : t) (data : list byte) : option t :=
  if bool_decide (Z.of_nat (length (buffer self) + length data)
                  > max_buffer_samples self * 2)
  then None
  else Some (mk (buffer self ++ data) (max_buffer_samples self)).

(** Modelled from the spec: [has_complete_frame() -> bool]. *)
Definition has_complete_frame (self : t) : bool :=
  bool_decide (frame_bytes <= length (buffer self))%nat.

(** Modelled from the spec: [read_frame() -> frame bytes | none], "removing
    exactly one fixed-size frame (512 samples) from the front, leaving any
    remainder for future frames". *)
Definition read_frame (self : t) : option (list byte * t) :=
  if has_complete_frame self then
    Some (take frame_bytes (buffer self),
          mk (drop frame_bytes (buffer self)) (max_buffer_samples self))
  else None.

(** Modelled from the spec: [clear()] "discards all buffered bytes". *)
Definition clear (self : t) : t := mk [] (max_buffer_samples self).

(** The complete frames the buffer holds, front first. *)
Fixpoint frames_of (n : nat) (bytes : list byte) : list (list byte) :=
  match n with
  | O => []
  | S n' => take frame_bytes bytes :: frames_of n' (drop frame_bytes bytes)
  end.

Definition complete_frames (self : t) : list (list byte) :=
  frames_of (length (buffer self) / frame_bytes) (buffer self).

End FrameAlignedBuffer.

(** ** The voice-activity oracle ([silero_vad])

    [load_silero_vad] yields a model, [VADIterator(model, ...)] wraps it,
    and calling the iterator on a frame either returns a verdict or raises.
    The iterator is stateful: the call also yields the iterator after it.
    The frame is passed as its bytes; the tensor the code builds from them
    ([np.frombuffer(...).astype(np.float32) / 32768.0]) is a function of
    these bytes. *)

Inductive VadOutcome :=
| Returns (v : VadResult)
| Raises.

Class SileroVad (Model Iter : Type) := {
  VADIterator : Model -> Config -> Iter;
  vad_call : Iter -> list byte -> VadOutcome * Iter
}.

(** What a call can do: return a value, raise, or fail to terminate within
    the iteration bound of the model (shown below never to happen). *)
Inductive Outcome (A : Type) :=
| Returned (a : A)
| Raised (e : CascadeError)
| Diverged.

Arguments Returned {A}.
Arguments Raised {A}.
Arguments Diverged {A}.

Record ProcessorStats := {
  stats_total_chunks_processed : Z;
  stats_total_processing_time_ms : Q;
  average_processing_time_ms : Q;
  speech_segments : Z;
  single_frames : Z;
  speech_ratio : Q;
  throughput_chunks_per_second : Q;
  memory_usage_mb : Q;
  stats_error_count : Z;
  error_rate : Q
}.

(** The three health warnings [get_stats] can log. *)
Inductive HealthWarning :=
| SlowProcessing
| HighErrorRate
| LowThroughput.

Definition Qgtb (x y : Q) : bool := negb (Qle_bool x y).
Definition Qltb (x y : Q) : bool := negb (Qle_bool y x).

(** [MAX_CHUNK_SIZE = 512 * 1024] *)
Definition MAX_CHUNK_SIZE : Z := 512 * 1024.

(** [_validate_audio_chunk]: [None] when the method returns, [Some e] when
    it raises [e]. *)
Definition _validate_audio_chunk (audio_data : list byte)
  : option CascadeError :=
  let data_size := Z.of_nat (length audio_data) in
  if bool_decide (data_size = 0) then None
  else if bool_decide (data_size > MAX_CHUNK_SIZE) then
    Some (Build_CascadeError INVALID_INPUT HIGH)
  else if bool_decide (data_size mod 2 <> 0) then
    Some (Build_CascadeError AUDIO_CORRUPTION HIGH)
  else None.

(** ** StreamProcessor ([cascade/stream/processor.py])

    One record field per attribute of the class.  [self.interruption_manager]
    and [self.state_machine.interruption_manager] are one object: it is
    stored once, in the state machine, and [interruption_manager] below
    reads it there.  The admission semaphore is left out: the calls of one
    session are made one after the other, and then it never blocks.
    [frames_built] is a history variable, which the code does not have: the
    [AudioFrame] objects constructed so far, oldest first. *)

Module StreamProcessor.

Record t (M Model Iter : Type) := mk {
  config : Config;
  frame_buffer : FrameAlignedBuffer.t;
  state_machine : VADStateMachine.t M;
  model : option Model;
  vad_iterator : option Iter;
  frame_counter : Z;
  total_chunks_processed : Z;
  total_processing_time_ms : Q;
  speech_segments_count : Z;
  single_frames_count : Z;
  error_count : Z;
  processing_times : list Q;
  max_processing_times : Z;
  _last_process_time : Q;
  is_initialized : bool;
  frames_built : list AudioFrame
}.

Arguments mk {M Model Iter}.
Arguments config {M Model Iter}.
Arguments frame_buffer {M Model Iter}.
Arguments state_machine {M Model Iter}.
Arguments model {M Model Iter}.
Arguments vad_iterator {M Model Iter}.
Arguments frame_counter {M Model Iter}.
Arguments total_chunks_processed {M Model Iter}.
Arguments total_processing_time_ms {M Model Iter}.
Arguments speech_segments_count {M Model Iter}.
Arguments single_frames_count {M Model Iter}.
Arguments error_count {M Model Iter}.
Arguments processing_times {M Model Iter}.
Arguments max_processing_times {M Model Iter}.
Arguments _last_process_time {M Model Iter}.
Arguments is_initialized {M Model Iter}.
Arguments frames_built {M Model Iter}.

Section Methods.
Context {M Model Iter : Type} `{!InterruptionManager M} `{!SileroVad Model Iter}.
Variable time_time : nat -> Q.

Abbreviation t' := (t M Model Iter).

Definition set_frame_buffer (self : t') (v : FrameAlignedBuffer.t) : t' :=
  mk (config self) v (state_machine self) (model self) (vad_iterator self)
     (frame_counter self) (total_chunks_processed self)
     (total_processing_time_ms self) (speech_segments_count self)
     (single_frames_count self) (error_count self) (processing_times self)
     (max_processing_times self) (_last_process_time self) (is_initialized
     self) (frames_built self).

Definition set_state_machine (self : t') (v : VADStateMachine.t M) : t' :=
  mk (config self) (frame_buffer self) v (model self) (vad_iterator self)
     (frame_counter self) (total_chunks_processed self)
     (total_processing_time_ms self) (speech_segments_count self)
     (single_frames_count self) (error_count self) (processing_times self)
     (max_processing_times self) (_last_process_time self) (is_initialized
     self) (frames_built self).

Definition set_model (self : t') (v : option Model) : t' :=
  mk (config self) (frame_buffer self) (state_machine self) v (vad_iterator
     self) (frame_counter self) (total_chunks_processed self)
     (total_processing_time_ms self) (speech_segments_count self)
     (single_frames_count self) (error_count self) (processing_times self)
     (max_processing_times self) (_last_process_time self) (is_initialized
     self) (frames_built self).

Definition set_vad_iterator (self : t') (v : option Iter) : t' :=
  mk (config self) (frame_buffer self) (state_machine self) (model self) v
     (frame_counter self) (total_chunks_processed self)
     (total_processing_time_ms self) (speech_segments_count self)
     (single_frames_count self) (error_count self) (processing_times self)
     (max_processing_times self) (_last_process_time self) (is_initialized
     self) (frames_built self).

Definition set_frame_counter (self : t') (v : Z) : t' :=
  mk (config self) (frame_buffer self) (state_machine self) (model self)
     (vad_iterator self) v (total_chunks_processed self)
     (total_processing_time_ms self) (speech_segments_count self)
     (single_frames_count self) (error_count self) (processing_times self)
     (max_processing_times self) (_last_process_time self) (is_initialized
     self) (frames_built self).

Definition set_total_chunks_processed (self : t') (v : Z) : t' :=
  mk (config self) (frame_buffer self) (state_machine self) (model self)
     (vad_iterator self) (frame_counter self) v (total_processing_time_ms
     self) (speech_segments_count self) (single_frames_count self)
     (error_count self) (processing_times self) (max_processing_times self)
     (_last_process_time self) (is_initialized self) (frames_built self).

Definition set_total_processing_time_ms (self : t') (v : Q) : t' :=
  mk (config self) (frame_buffer self) (state_machine self) (model self)
     (vad_iterator self) (frame_counter self) (total_chunks_processed self)
     v (speech_segments_count self) (single_frames_count self) (error_count
     self) (processing_times self) (max_processing_times self)
     (_last_process_time self) (is_initialized self) (frames_built self).

Definition set_speech_segments_count (self : t') (v : Z) : t' :=
  mk (config self) (frame_buffer self) (state_machine self) (model self)
     (vad_iterator self) (frame_counter self) (total_chunks_processed self)
     (total_processing_time_ms self) v (single_frames_count self)
     (error_count self) (processing_times self) (max_processing_times self)
     (_last_process_time self) (is_initialized self) (frames_built self).

Definition set_single_frames_count (self : t') (v : Z) : t' :=
  mk (config self) (frame_buffer self) (state_machine self) (model self)
     (vad_iterator self) (frame_counter self) (total_chunks_processed self)
     (total_processing_time_ms self) (speech_segments_count self) v
     (error_count self) (processing_times self) (max_processing_times self)
     (_last_process_time self) (is_initialized self) (frames_built self).

Definition set_error_count (self : t') (v : Z) : t' :=
  mk (config self) (frame_buffer self) (state_machine self) (model self)
     (vad_iterator self) (frame_counter self) (total_chunks_processed self)
     (total_processing_time_ms self) (speech_segments_count self)
     (single_frames_count self) v (processing_times self)
     (max_processing_times self) (_last_process_time self) (is_initialized
     self) (frames_built self).

Definition set_processing_times (self : t') (v : list Q) : t' :=
  mk (config self) (frame_buffer self) (state_machine self) (model self)
     (vad_iterator self) (frame_counter self) (total_chunks_processed self)
     (total_processing_time_ms self) (speech_segments_count self)
     (single_frames_count self) (error_count self) v (max_processing_times
     self) (_last_process_time self) (is_initialized self) (frames_built
     self).

Definition set_last_process_time (self : t') (v : Q) : t' :=
  mk (config self) (frame_buffer self) (state_machine self) (model self)
     (vad_iterator self) (frame_counter self) (total_chunks_processed self)
     (total_processing_time_ms self) (speech_segments_count self)
     (single_frames_count self) (error_count self) (processing_times self)
     (max_processing_times self) v (is_initialized self) (frames_built
     self).

Definition set_is_initialized (self : t') (v : bool) : t' :=
  mk (config self) (frame_buffer self) (state_machine self) (model self)
     (vad_iterator self) (frame_counter self) (total_chunks_processed self)
     (total_processing_time_ms self) (speech_segments_count self)
     (single_frames_count self) (error_count self) (processing_times self)
     (max_processing_times self) (_last_process_time self) v (frames_built
     self).

Definition set_frames_built (self : t') (v : list AudioFrame) : t' :=
  mk (config self) (frame_buffer self) (state_machine self) (model self)
     (vad_iterator self) (frame_counter self) (total_chunks_processed self)
     (total_processing_time_ms self) (speech_segments_count self)
     (single_frames_count self) (error_count self) (processing_times self)
     (max_processing_times self) (_last_process_time self) (is_initialized
     self) v.

(** The one manager object, read through the state machine. *)
Definition interruption_manager (self : t') : option M :=
  VADStateMachine.interruption_manager (state_machine self).

(** [_validate_config] *)
Definition _validate_config (config : Config) : option CascadeError :=
  if Qltb (vad_threshold config) 0 || Qgtb (vad_threshold config) 1 then
    Some (Build_CascadeError INVALID_CONFIG HIGH)
  else None.

(** [__init__] with an explicit configuration. *)
Definition new (config : Config) : Outcome t' :=
  match _validate_config config with
  | Some e => Raised e
  | None =>
      let interruption_manager :=
        manager_new (interruption_config config) in
      Returned
        (mk config
            (FrameAlignedBuffer.new 128000)
            (VADStateMachine.new "stream_processor"
                                 (Some interruption_manager))
            None None 0 0 0%Q 0 0 0 [] 100 0%Q false [])
  end.

(** [initialize].  [loaded] is what [load_silero_vad] gives: a model, or
    [None] when loading raises. *)
Definition initialize (self : t') (loaded : option Model)
  : Outcome unit * t' :=
  if is_initialized self then (Returned tt, self)
  else
    match loaded with
    | None => (Raised (Build_CascadeError INITIALIZATION_FAILED HIGH), self)
    | Some m =>
        let self1 := set_model self (Some m) in
        let self2 :=
          set_vad_iterator self1 (Some (VADIterator m (config self))) in
        (Returned tt, set_is_initialized self2 true)
    end.

(** [_record_processing_time] *)
Definition _record_processing_time (self : t') (processing_time_ms : Q) : t' :=
  let times := processing_times self ++ [processing_time_ms] in
  if bool_decide (Z.of_nat (length times) > max_processing_times self) then
    set_processing_times self (drop 1 times)
  else set_processing_times self times.

(** How one pass through the body of the [while] loop ends: at the end of
    the body, at the [break], or in an exception. *)
Inductive BodyExit :=
| BodyNext (self : t') (results : list CascadeResult) (clock : nat)
| BodyBreak (self : t')
| BodyRaised (self : t').

(** The body of the loop of [_process_chunk_internal]: read a frame, ask
    the iterator, number and stamp the frame, run the state machine, count
    and keep the result.  Calling an iterator that is [None] raises. *)
Definition loop_body (self : t') (results : list CascadeResult) (clock : nat)
  : BodyExit :=
  match FrameAlignedBuffer.read_frame (frame_buffer self) with
  | None => BodyBreak self
  | Some (frame_data, buffer') =>
      let self1 := set_frame_buffer self buffer' in
      if bool_decide (frame_data = []) then BodyBreak self1
      else
        match vad_iterator self1 with
        | None => BodyRaised self1
        | Some it =>
            let '(outcome, it') := vad_call it frame_data in
            let self2 := set_vad_iterator self1 (Some it') in
            match outcome with
            | Raises => BodyRaised self2
            | Returns vad_result =>
                let self3 :=
                  set_frame_counter self2 (frame_counter self2 + 1) in
                let timestamp_ms := (inject_Z (frame_counter self3) * 32)%Q in
                let frame :=
                  Build_AudioFrame (frame_counter self3) frame_data
                                   timestamp_ms vad_result in
                let self4 :=
                  set_frames_built self3 (frames_built self3 ++ [frame]) in
                let '(result, sm', clock') :=
                  VADStateMachine.process_frame
                    time_time (state_machine self4) frame clock in
                let self5 := set_state_machine self4 sm' in
                match result with
                | Some r =>
                    let self6 :=
                      if is_speech_segment r then
                        set_speech_segments_count
                          self5 (speech_segments_count self5 + 1)
                      else
                        set_single_frames_count
                          self5 (single_frames_count self5 + 1) in
                    BodyNext self6 (results ++ [r]) clock'
                | None => BodyNext self5 results clock'
                end
            end
        end
  end.

(** The processor after a pass through the loop body in which the iterator
    answered [v] on the frame [frame_data], spelled out field by field. *)
Definition after_frame (self : t') (buffer' : FrameAlignedBuffer.t)
  (it' : Iter) (fr : AudioFrame) (clock : nat) : t' :=
  let processed :=
    VADStateMachine.process_frame time_time (state_machine self) fr clock in
  let result := fst (fst processed) in
  mk (config self) buffer' (snd (fst processed)) (model self) (Some it')
     (frame_counter self + 1) (total_chunks_processed self)
     (total_processing_time_ms self)
     (speech_segments_count self
      + match result with
        | Some r => if is_speech_segment r then 1 else 0
        | None => 0
        end)
     (single_frames_count self
      + match result with
        | Some r => if is_speech_segment r then 0 else 1
        | None => 0
        end)
     (error_count self) (processing_times self) (max_processing_times self)
     (_last_process_time self) (is_initialized self)
     (frames_built self ++ [fr]).

(** How the loop is left. *)
Inductive LoopExit :=
| LoopDone (results : list CascadeResult) (self : t') (clock : nat)
| LoopRaised (self : t') (clock : nat)
| LoopFuel.

(** The [while self.frame_buffer.has_complete_frame()] loop.  [fuel] bounds
    the number of iterations; [_process_chunk_internal] passes the number of
    buffered bytes, which is never used up ([frame_loop_terminates] below). *)
Fixpoint frame_loop (fuel : nat) (self : t') (results : list CascadeResult)
  (clock : nat) : LoopExit :=
  if FrameAlignedBuffer.has_complete_frame (frame_buffer self) then
    match fuel with
    | O => LoopFuel
    | S fuel' =>
        match loop_body self results clock with
        | BodyNext self' results' clock' =>
            frame_loop fuel' self' results' clock'
        | BodyBreak self' => LoopDone results self' clock
        | BodyRaised self' => LoopRaised self' clock
        end
    end
  else LoopDone results self clock.

(** [_process_chunk_internal].  Whatever is raised inside the [try] is
    caught, counted and raised again as a [CascadeError] with code
    [PROCESSING_FAILED]; the results gathered so far are local to the call
    and are lost with it. *)
Definition _process_chunk_internal (self : t') (audio_data : list byte)
  (clock : nat) : Outcome (list CascadeResult) * t' * nat :=
  let start_time := time_time clock in
  let clock := S clock in
  match FrameAlignedBuffer.write (frame_buffer self) audio_data with
  | None =>
      (Raised (Build_CascadeError PROCESSING_FAILED HIGH),
       set_error_count self (error_count self + 1), clock)
  | Some buffer' =>
      let self0 := set_frame_buffer self buffer' in
      match frame_loop (length (FrameAlignedBuffer.buffer buffer'))
                       self0 [] clock with
      | LoopDone results self1 clock1 =>
          let processing_time := ((time_time clock1 - start_time) * 1000)%Q in
          let self2 :=
            set_total_chunks_processed
              self1 (total_chunks_processed self1 + 1) in
          let self3 :=
            set_total_processing_time_ms
              self2 (total_processing_time_ms self2 + processing_time)%Q in
          (Returned results, _record_processing_time self3 processing_time,
           S clock1)
      | LoopRaised self1 clock1 =>
          (Raised (Build_CascadeError PROCESSING_FAILED HIGH),
           set_error_count self1 (error_count self1 + 1), clock1)
      | LoopFuel => (Diverged, self0, clock)
      end
  end.

(** [process_chunk] *)
Definition process_chunk (self : t') (audio_data : list byte) (clock : nat)
  : Outcome (list CascadeResult) * t' * nat :=
  match vad_iterator self with
  | None => (Raised (Build_CascadeError INVALID_STATE HIGH), self, clock)
  | Some _ =>
      match _validate_audio_chunk audio_data with
      | Some e => (Raised e, self, clock)
      | None =>
          match _process_chunk_internal self audio_data clock with
          | (Returned results, self', clock') =>
              (Returned results,
               set_last_process_time self' (time_time clock'), S clock')
          | raised => raised
          end
      end
  end.

(** [close].  The iterator's [reset_states()] and the CUDA cache clearing
    act on objects that are dropped right after, and what they raise is
    caught on the spot; nothing else in the body raises.  The buffer and
    the state machine are always there, so the two truth tests on them
    succeed.  The frame counter is not among the attributes reset. *)
Definition close (self : t') : Outcome unit * t' :=
  let self1 := set_model self None in
  let self2 := set_vad_iterator self1 None in
  let self3 :=
    set_frame_buffer self2 (FrameAlignedBuffer.clear (frame_buffer self2)) in
  let self4 :=
    set_state_machine self3 (VADStateMachine.reset (state_machine self3)) in
  let self5 := set_processing_times self4 [] in
  (Returned tt, set_is_initialized self5 false).

(** [get_stats]: the statistics, and the health warnings logged. *)
Definition get_stats (self : t') : ProcessorStats * list HealthWarning :=
  let avg_processing_time :=
    if bool_decide (total_chunks_processed self > 0) then
      (total_processing_time_ms self / inject_Z (total_chunks_processed self))%Q
    else 0%Q in
  let total_results := speech_segments_count self + single_frames_count self in
  let speech_ratio :=
    if bool_decide (total_results > 0) then
      (inject_Z (speech_segments_count self) / inject_Z total_results)%Q
    else 0%Q in
  let throughput :=
    if Qgtb (total_processing_time_ms self) 0 then
      (inject_Z (total_chunks_processed self)
       / (total_processing_time_ms self / 1000))%Q
    else 0%Q in
  let error_rate :=
    if bool_decide (total_chunks_processed self > 0) then
      (inject_Z (error_count self) / inject_Z (total_chunks_processed self))%Q
    else 0%Q in
  let memory_usage_mb := if is_initialized self then 80%Q else 0%Q in
  let warnings :=
    if bool_decide (total_chunks_processed self > 10) then
      (if Qgtb avg_processing_time 100 then [SlowProcessing] else [])
      ++ (if Qgtb error_rate (5 # 100) then [HighErrorRate] else [])
      ++ (if Qltb throughput 10
             && bool_decide (total_chunks_processed self > 100)
          then [LowThroughput] else [])
    else [] in
  (Build_ProcessorStats
     (total_chunks_processed self) (total_processing_time_ms self)
     avg_processing_time (speech_segments_count self)
     (single_frames_count self) speech_ratio throughput memory_usage_mb
     (error_count self) error_rate,
   warnings).

(** [reset_stats] *)
Definition reset_stats (self : t') : t' :=
  let self1 := set_total_chunks_processed self 0 in
  let self2 := set_total_processing_time_ms self1 0%Q in
  let self3 := set_speech_segments_count self2 0 in
  let self4 := set_single_frames_count self3 0 in
  let self5 := set_error_count self4 0 in
  set_processing_times self5 [].

(** [set_system_state] *)
Definition set_system_state (self : t') (s : SystemState.t) : t' :=
  let sm := state_machine self in
  set_state_machine self
    (VADStateMachine.mk
       (VADStateMachine.instance_id sm) (VADStateMachine.state sm)
       (VADStateMachine.current_collector sm)
       (VADStateMachine.segment_counter sm)
       (match VADStateMachine.interruption_manager sm with
        | Some m => Some (set_state m s)
        | None => None
        end)).

(** [get_system_state] *)
Definition get_system_state (self : t') : option SystemState.t :=
  match interruption_manager self with
  | Some m => Some (get_state m)
  | None => None
  end.

(** Does the iterator raise on one of these frames, fed in order? *)
Fixpoint oracle_raises (it : Iter) (frames : list (list byte)) : bool :=
  match frames with
  | [] => false
  | frame_data :: rest =>
      match vad_call it frame_data with
      | (Raises, _) => true
      | (Returns _, it') => oracle_raises it' rest
      end
  end.

(** The number of frames the iterator answers before it first raises. *)
Fixpoint answered (it : Iter) (frames : list (list byte)) : nat :=
  match frames with
  | [] => O
  | frame_data :: rest =>
      match vad_call it frame_data with
      | (Raises, _) => O
      | (Returns _, it') => S (answered it' rest)
      end
  end.

(** What an asynchronous generator has done when its caller has read it to
    the end: the results yielded, in order, and how it ended. *)
Abbreviation Yielded := (list CascadeResult * Outcome unit * t' * nat)%type.

(** The loop of [process_stream] and of [process_file] inside their [try]:
    each chunk goes through [process_chunk] and its results are yielded one
    by one; whatever is raised ends the iteration and is raised again as a
    [CascadeError] with code [PROCESSING_FAILED]. *)
Fixpoint yield_chunks (self : t') (chunks : list (list byte)) (clock : nat)
  : Yielded :=
  match chunks with
  | [] => ([], Returned tt, self, clock)
  | audio_chunk :: rest =>
      match process_chunk self audio_chunk clock with
      | (Returned results, self', clock') =>
          let '(yielded, outcome, self'', clock'') :=
            yield_chunks self' rest clock' in
          (results ++ yielded, outcome, self'', clock'')
      | (Raised _, self', clock') =>
          ([], Raised (Build_CascadeError PROCESSING_FAILED HIGH),
           self', clock')
      | (Diverged, self', clock') => ([], Diverged, self', clock')
      end
  end.

(** [process_stream], on a stream that delivers the chunks of
    [audio_stream] and then ends.  [initialize] is called outside the
    [try]: what it raises is not wrapped. *)
Definition process_stream (self : t') (loaded : option Model)
  (audio_stream : list (list byte)) (clock : nat) : Yielded :=
  let '(initialized, self0) :=
    if is_initialized self then (Returned tt, self)
    else initialize self loaded in
  match initialized with
  | Returned _ => yield_chunks self0 audio_stream clock
  | Raised e => ([], Raised e, self0, clock)
  | Diverged => ([], Diverged, self0, clock)
  end.

End Methods.

Section FileMethods.
Context {M Model Iter : Type} `{!InterruptionManager M} `{!SileroVad Model Iter}.
Variable time_time : nat -> Q.

(** The samples of a file are of a type [A]; [tobytes] is the conversion
    of one frame of samples, [(frame * 32767).astype(np.int16).tobytes()]. *)
Context {A : Type}.
Variable tobytes : list A -> list byte.

(** [range(0, stop, step)] for a positive [step]. *)
Definition range_step (stop step : nat) : list nat :=
  (fun k => k * step)%nat <$> seq 0 ((stop + step - 1) / step).

(** [_generate_audio_frames]: the body of the [for] loop, over the indices
    that are left; a frame shorter than [frame_size] ends the loop. *)
Fixpoint frames_at (indices : list nat) (audio_data : list A)
  (frame_size : nat) : list (list byte) :=
  match indices with
  | [] => []
  | i :: rest =>
      let frame := take frame_size (drop i audio_data) in
      if bool_decide (length frame < frame_size)%nat then []
      else tobytes frame :: frames_at rest audio_data frame_size
  end.

(** [_generate_audio_frames].  [range] raises on a zero step: [None]. *)
Definition _generate_audio_frames (audio_data : list A) (frame_size : nat)
  : option (list (list byte)) :=
  if bool_decide (frame_size = O) then None
  else
    Some (frames_at (range_step (length audio_data) frame_size)
                    audio_data frame_size).

(** [process_file].  [file_exists] is [os.path.exists(file_path)] and
    [file_audio] what [_read_audio_file] gives, [None] when it raises.  The
    existence test, the reading and the framing are inside the [try]: what
    they raise is raised again with code [PROCESSING_FAILED]. *)
Definition process_file (self : t M Model Iter) (loaded : option Model)
  (file_exists : bool) (file_audio : option (list A)) (clock : nat)
  : list CascadeResult * Outcome unit * t M Model Iter * nat :=
  let '(initialized, self0) :=
    if is_initialized self then (Returned tt, self)
    else initialize self loaded in
  match initialized with
  | Returned _ =>
      if negb file_exists then
        ([], Raised (Build_CascadeError PROCESSING_FAILED HIGH), self0, clock)
      else
        match file_audio with
        | None =>
            ([], Raised (Build_CascadeError PROCESSING_FAILED HIGH),
             self0, clock)
        | Some audio_data =>
            match _generate_audio_frames audio_data 512 with
            | None =>
                ([], Raised (Build_CascadeError PROCESSING_FAILED HIGH),
                 self0, clock)
            | Some audio_frames =>
                yield_chunks time_time self0 audio_frames clock
            end
        end
  | Raised e => ([], Raised e, self0, clock)
  | Diverged => ([], Diverged, self0, clock)
  end.

End FileMethods.

(** A frame is stamped when its timestamp is 32 ms times its id. *)
Definition stamped (f : AudioFrame) : Prop :=
  timestamp_ms f = (inject_Z (frame_id f) * 32)%Q.

(** The frames built so far are numbered 1, 2, 3, ... up to the frame
    counter, and each is stamped. *)
Definition numbered {M Model Iter : Type} (self : t M Model Iter) : Prop :=
  0 <= frame_counter self
  /\ map frame_id (frames_built self) = seqZ 1 (frame_counter self)
  /\ Forall stamped (frames_built self).

(** The attributes the loop never writes. *)
Definition kept {M Model Iter : Type} (a b : t M Model Iter) : Prop :=
  config b = config a
  /\ model b = model a
  /\ total_chunks_processed b = total_chunks_processed a
  /\ total_processing_time_ms b = total_processing_time_ms a
  /\ error_count b = error_count a
  /\ processing_times b = processing_times a
  /\ max_processing_times b = max_processing_times a
  /\ _last_process_time b = _last_process_time a
  /\ is_initialized b = is_initialized a
  /\ FrameAlignedBuffer.max_buffer_samples (frame_buffer b)
     = FrameAlignedBuffer.max_buffer_samples (frame_buffer a).

(** What holds of a processor all along its life: the three marks of
    initialization agree, the state machine is coherent and has its
    manager, the latency window and the buffer are within their bounds, and
    the statistics are not negative. *)
Definition well_formed {M Model Iter : Type} (self : t M Model Iter) : Prop :=
  (is_initialized self = true <-> is_Some (vad_iterator self))
  /\ (is_Some (model self) <-> is_Some (vad_iterator self))
  /\ VADStateMachine.coherent (state_machine self)
  /\ VADStateMachine.started (state_machine self)
  /\ is_Some (VADStateMachine.interruption_manager (state_machine self))
  /\ max_processing_times self = 100
  /\ (length (processing_times self) <= 100)%nat
  /\ FrameAlignedBuffer.max_buffer_samples (frame_buffer self) = 128000
  /\ Z.of_nat (length (FrameAlignedBuffer.buffer (frame_buffer self)))
     <= 256000
  /\ 0 <= total_chunks_processed self
  /\ 0 <= error_count self
  /\ 0 <= speech_segments_count self
  /\ 0 <= single_frames_count self.

End StreamProcessor.

(** ** A session: the calls made on one processor, in order *)

Module Session.

Inductive Call (Model : Type) :=
| Initialize (loaded : option Model)
| ProcessChunk (audio_data : list byte)
| Close
| GetStats
| ResetStats
| SetSystemState (s : SystemState.t).

Arguments Initialize {Model}.
Arguments ProcessChunk {Model}.
Arguments Close {Model}.
Arguments GetStats {Model}.
Arguments ResetStats {Model}.
Arguments SetSystemState {Model}.

Section Run.
Context {M Model Iter : Type} `{!InterruptionManager M} `{!SileroVad Model Iter}.
Variable time_time : nat -> Q.

Definition step (call : Call Model) (self : StreamProcessor.t M Model Iter)
  (clock : nat) : StreamProcessor.t M Model Iter * nat :=
  match call with
  | Initialize loaded => (snd (StreamProcessor.initialize self loaded), clock)
  | ProcessChunk audio_data =>
      let '(_, self', clock') :=
        StreamProcessor.process_chunk time_time self audio_data clock in
      (self', clock')
  | Close => (snd (StreamProcessor.close self), clock)
  | GetStats => (self, clock)
  | ResetStats => (StreamProcessor.reset_stats self, clock)
  | SetSystemState s => (StreamProcessor.set_system_state self s, clock)
  end.

Fixpoint run (calls : list (Call Model)) (self : StreamProcessor.t M Model Iter)
  (clock : nat) : StreamProcessor.t M Model Iter * nat :=
  match calls with
  | [] => (self, clock)
  | call :: rest =>
      let '(self', clock') := step call self clock in
      run rest self' clock'
  end.

End Run.

End Session.

(** ** Concrete collaborators

    Instances of the two interfaces, on which the theorems are exercised. *)

Module SpecManager.

Record t := mk {
  state : SystemState.t;
  config : InterruptionConfig;
  last_interruption_ms : option Q
}.

Definition new (config : InterruptionConfig) : t :=
  mk SystemState.IDLE config None.

Definition debounced (self : t) (timestamp_ms : Q) : bool :=
  match last_interruption_ms self with
  | Some last =>
      negb (Qle_bool (min_interval_ms (config self)) (timestamp_ms - last))
  | None => false
  end.

Definition responding (self : t) : bool :=
  bool_decide (state self = SystemState.PROCESSING
               \/ state self = SystemState.RESPONDING).

(** Modelled from the spec: [on_speech_start], "if current state is
    Processing or Responding, and at least min_interval_ms has elapsed since
    the last accepted interruption (debounce), transitions state to
    Collecting and returns an InterruptionEvent carrying the prior state;
    otherwise (...) transitions to Collecting and returns nothing". *)
Definition on_speech_start (self : t) (timestamp_ms : Q)
  : option InterruptionEvent * t :=
  if responding self && negb (debounced self timestamp_ms) then
    (Some (Build_InterruptionEvent timestamp_ms (state self)),
     mk SystemState.COLLECTING (config self) (Some timestamp_ms))
  else
    (None,
     mk SystemState.COLLECTING (config self) (last_interruption_ms self)).

(** Modelled from the spec: [on_speech_end] "transitions state from
    Collecting back to Idle". *)
Definition on_speech_end (self : t) (timestamp_ms : Q) : t :=
  if bool_decide (state self = SystemState.COLLECTING) then
    mk SystemState.IDLE (config self) (last_interruption_ms self)
  else self.

(** Modelled from the spec: [set_state(s)] / [get_state()], the "explicit
    external override". *)
Definition set_state (self : t) (s : SystemState.t) : t :=
  mk s (config self) (last_interruption_ms self).

Definition get_state (self : t) : SystemState.t := state self.

Definition manager : InterruptionManager t :=
  Build_InterruptionManager t new on_speech_start on_speech_end
                            get_state set_state.

End SpecManager.

(** A manager that refuses a speech start inside the debounce window and
    stays in the state it was in: the case the comment of
    [_handle_speech_start] describes ("the manager refuses to enter the
    collecting state, e.g. the interval is too short"). *)
Module RefusingManager.

Definition on_speech_start (self : SpecManager.t) (timestamp_ms : Q)
  : option InterruptionEvent * SpecManager.t :=
  if SpecManager.responding self && SpecManager.debounced self timestamp_ms
  then (None, self)
  else SpecManager.on_speech_start self timestamp_ms.

Definition manager : InterruptionManager SpecManager.t :=
  Build_InterruptionManager SpecManager.t
    SpecManager.new on_speech_start SpecManager.on_speech_end
    SpecManager.get_state SpecManager.set_state.

End RefusingManager.

(** An oracle that plays back a script of outcomes, one per call, and
    answers [None] once the script is over. *)
Module ScriptedVad.

Definition vad_call (script : list VadOutcome) (frame_data : list byte)
  : VadOutcome * list VadOutcome :=
  match script with
  | [] => (Returns None, [])
  | outcome :: rest => (outcome, rest)
  end.

Definition oracle : SileroVad (list VadOutcome) (list VadOutcome) :=
  Build_SileroVad (list VadOutcome) (list VadOutcome)
                  (fun model _ => model) vad_call.

End ScriptedVad.

(** A clock that advances by one second at every reading. *)
Definition ticking (n : nat) : Q := inject_Z (Z.of_nat n).

Definition start_verdict (n : Z) : VadResult :=
  Some ({[ "start"%string := n ]} : gmap string Z).

Definition end_verdict (n : Z) : VadResult :=
  Some ({[ "end"%string := n ]} : gmap string Z).

Definition silence (n : nat) : list byte := replicate n x00.

Definition default_config : Config :=
  Build_Config (1 # 2) 100 30 (Build_InterruptionConfig true 500).

(** An initialized, idle processor whose iterator plays back [script]: what
    [new default_config] followed by [initialize] gives. *)
Definition scripted_processor (script : list VadOutcome)
  : StreamProcessor.t SpecManager.t (list VadOutcome) (list VadOutcome) :=
  StreamProcessor.mk default_config (FrameAlignedBuffer.new 128000)
    (VADStateMachine.new "stream_processor"
       (Some (SpecManager.new (interruption_config default_config))))
    (Some script) (Some script) 0 0 0%Q 0 0 0 [] 100 0%Q true [].

(** An idle state machine next to a manager in the given system state. *)
Definition idle_machine (s : SystemState.t) : VADStateMachine.t SpecManager.t :=
  VADStateMachine.new "stream_processor"
    (Some (SpecManager.mk s (Build_InterruptionConfig true 500) None)).

(** A conversion of samples to bytes, two zero bytes per sample. *)
Definition zero_bytes (frame : list Z) : list byte :=
  flat_map (fun _ => [x00; x00]) frame.

(** Frame number [n], four bytes long, with the given verdict. *)
Definition test_frame (n : Z) (v : VadResult) : AudioFrame :=
  Build_AudioFrame n (silence 4) (inject_Z n * 32)%Q v.

(** * Properties of the state machine *)

Section StateMachineFacts.
Context {M : Type} `{!InterruptionManager M}.
Variable time_time : nat -> Q.

Import VADStateMachine.

Lemma coherent_new (id : string) (manager : option M) :
  coherent (VADStateMachine.new id manager).
Proof.
  unfold coherent; simpl. split; [discriminate | intros [c Hc]; discriminate].
Qed.

Lemma coherent_reset (self : VADStateMachine.t M) : coherent (reset self).
Proof.
  unfold coherent; simpl. split; [discriminate | intros [c Hc]; discriminate].
Qed.

Lemma coherent_handle_no_speech (self : VADStateMachine.t M) frame :
  coherent self -> coherent (snd (_handle_no_speech self frame)).
Proof.
  unfold coherent, _handle_no_speech. intros Hc.
  destruct (state self) eqn:Hs, (current_collector self) eqn:Hcol; simpl;
    rewrite ?Hs, ?Hcol; try exact Hc.
  split; eauto.
Qed.

Lemma coherent_handle_speech_start (self : VADStateMachine.t M) frame :
  coherent self -> coherent (snd (_handle_speech_start self frame)).
Proof.
  unfold coherent, _handle_speech_start. intros Hc.
  destruct (interruption_manager self) as [m|].
  - destruct (on_speech_start m (timestamp_ms frame)) as [ev m'].
    case_bool_decide; simpl; [exact Hc|].
    case_bool_decide; simpl; [exact Hc|].
    destruct ev; simpl; split; eauto.
  - simpl. case_bool_decide; simpl; [exact Hc|]. split; eauto.
Qed.

Lemma coherent_handle_speech_end (self : VADStateMachine.t M) frame :
  coherent self -> coherent (snd (_handle_speech_end self frame)).
Proof.
  unfold coherent, _handle_speech_end. intros Hc.
  destruct (state self) eqn:Hs, (current_collector self) eqn:Hcol; simpl;
    rewrite ?Hs, ?Hcol; try exact Hc.
  split; [discriminate | intros [c Hc']; discriminate].
Qed.

Lemma coherent_handle_vad_result (self : VADStateMachine.t M) frame :
  coherent self -> coherent (snd (_handle_vad_result self frame)).
Proof.
  intros Hc. unfold _handle_vad_result.
  destruct (vad_result frame) as [d|];
    [repeat case_bool_decide|];
    auto using coherent_handle_no_speech, coherent_handle_speech_start,
               coherent_handle_speech_end.
Qed.

(** [process_frame] keeps the state machine coherent. *)
Lemma coherent_process_frame (self : VADStateMachine.t M) frame clock :
  coherent self ->
  coherent (snd (fst (process_frame time_time self frame clock))).
Proof.
  intros Hc. unfold process_frame.
  pose proof (coherent_handle_vad_result self frame Hc) as H.
  destruct (_handle_vad_result self frame) as [result self']. exact H.
Qed.

Lemma started_new (id : string) (manager : option M) :
  started (VADStateMachine.new id manager).
Proof. intros c; simpl; discriminate. Qed.

Lemma started_handle_no_speech (self : VADStateMachine.t M) frame :
  started self -> started (snd (_handle_no_speech self frame)).
Proof.
  unfold started, _handle_no_speech. intros Hst.
  destruct (state self), (current_collector self) as [c0|] eqn:Hcol; simpl;
    rewrite ?Hcol; intros c [= <-]; auto.
  simpl. intros Hnil. apply app_eq_nil in Hnil as [_ Hnil]. discriminate.
Qed.

Lemma started_handle_speech_start (self : VADStateMachine.t M) frame :
  started self -> started (snd (_handle_speech_start self frame)).
Proof.
  unfold started, _handle_speech_start. intros Hst.
  destruct (interruption_manager self) as [m|];
    [destruct (on_speech_start m (timestamp_ms frame)) as [ev m']|];
    repeat (case_bool_decide; simpl; [exact Hst|]);
    try destruct ev; simpl; intros c [= <-]; discriminate.
Qed.

Lemma started_handle_speech_end (self : VADStateMachine.t M) frame :
  started self -> started (snd (_handle_speech_end self frame)).
Proof.
  unfold started, _handle_speech_end. intros Hst.
  destruct (state self), (current_collector self) as [c0|] eqn:Hcol; simpl;
    rewrite ?Hcol; intros c [= <-]; auto.
Qed.

Lemma started_process_frame (self : VADStateMachine.t M) frame clock :
  started self ->
  started (snd (fst (process_frame time_time self frame clock))).
Proof.
  intros Hst. unfold process_frame.
  assert (started (snd (_handle_vad_result self frame))) as H.
  { unfold _handle_vad_result.
    destruct (vad_result frame) as [d|];
      [repeat case_bool_decide|];
      auto using started_handle_no_speech, started_handle_speech_start,
                 started_handle_speech_end. }
  destruct (_handle_vad_result self frame) as [result self']. exact H.
Qed.

End StateMachineFacts.

(** ** Start verdicts are gated by the manager *)

(** C1.  A frame with a start verdict makes the state machine call the
    manager's [on_speech_start] and then read the manager's state; when
    that state is not [COLLECTING] the verdict is dropped: the local state,
    the open collector and the segment counter are as before, and no result
    is returned. *)
Theorem start_verdict_gated {M : Type} `{!InterruptionManager M}
  (time_time : nat -> Q) (self : VADStateMachine.t M) (frame : AudioFrame)
  (d : gmap string Z) (m : M) (clock : nat) :
  vad_result frame = Some d ->
  is_Some (d !! "start"%string) ->
  VADStateMachine.interruption_manager self = Some m ->
  exists result self',
    VADStateMachine.process_frame time_time self frame clock
    = (result, self', S (S clock))
    /\ VADStateMachine.interruption_manager self'
       = Some (snd (on_speech_start m (timestamp_ms frame)))
    /\ (get_state (snd (on_speech_start m (timestamp_ms frame)))
        <> SystemState.COLLECTING ->
        result = None
        /\ VADStateMachine.state self' = VADStateMachine.state self
        /\ VADStateMachine.current_collector self'
           = VADStateMachine.current_collector self
        /\ VADStateMachine.segment_counter self'
           = VADStateMachine.segment_counter self).
Proof.
  intros Hvad Hstart Hm.
  unfold VADStateMachine.process_frame, VADStateMachine._handle_vad_result.
  rewrite Hvad, (bool_decide_eq_true_2 _ Hstart).
  unfold VADStateMachine._handle_speech_start. rewrite Hm.
  destruct (on_speech_start m (timestamp_ms frame)) as [ev m']; simpl.
  case_bool_decide as Hgate; simpl.
  - eexists _, _. split; [reflexivity|]. simpl. auto.
  - case_bool_decide; simpl.
    + eexists _, _. split; [reflexivity|]. simpl. split; [reflexivity|].
      intros Hne. contradiction.
    + destruct ev; simpl; eexists _, _; (split; [reflexivity|]); simpl;
        (split; [reflexivity|]); intros Hne; contradiction.
Qed.

(** The manager is responding and was interrupted 32 ms ago, inside its
    500 ms window: it refuses the start, and the state machine stays idle. *)
Lemma start_verdict_gated_witness :
  let m := SpecManager.mk SystemState.RESPONDING
             (Build_InterruptionConfig true 500) (Some 0%Q) in
  let self := VADStateMachine.mk "stream_processor"%string VADState.IDLE None 0
                (Some m) in
  let frame := Build_AudioFrame 1 (silence 4) 32%Q (start_verdict 512) in
  RefusingManager.on_speech_start m 32%Q = (None, m)
  /\ exists result self',
      @VADStateMachine.process_frame _ RefusingManager.manager ticking
        self frame 0
      = (result, self', 2%nat)
      /\ VADStateMachine.interruption_manager self' = Some m
      /\ (SystemState.RESPONDING <> SystemState.COLLECTING ->
          result = None
          /\ VADStateMachine.state self' = VADState.IDLE
          /\ VADStateMachine.current_collector self' = None
          /\ VADStateMachine.segment_counter self' = 0).
Proof.
  intros m self frame. split; [reflexivity|].
  apply (@start_verdict_gated _ RefusingManager.manager ticking self frame
           {[ "start"%string := 512 ]} m 0%nat).
  - reflexivity.
  - vm_compute. eexists. reflexivity.
  - reflexivity.
Defined.

(** ** End verdicts *)

(** C6.  A frame with an end verdict makes the state machine call the
    manager's [on_speech_end] whatever the local state is.  Then, when the
    local state is not [COLLECTING], nothing is returned and the local
    state, collector and counter are as before; when it is [COLLECTING], the
    open collector is finalized with the frame, the local state becomes
    [IDLE], no collector is left open, and the one result returned is the
    segment-level result carrying the finalized segment. *)
Theorem end_verdict_handled {M : Type} `{!InterruptionManager M}
  (time_time : nat -> Q) (self : VADStateMachine.t M) (f : AudioFrame)
  (d : gmap string Z) (clock : nat) :
  VADStateMachine.coherent self ->
  vad_result f = Some d ->
  d !! "start"%string = None ->
  is_Some (d !! "end"%string) ->
  exists result self',
    VADStateMachine.process_frame time_time self f clock
    = (result, self', S (S clock))
    /\ VADStateMachine.interruption_manager self'
       = (fun m => on_speech_end m (timestamp_ms f))
           <$> VADStateMachine.interruption_manager self
    /\ VADStateMachine.segment_counter self'
       = VADStateMachine.segment_counter self
    /\ (VADStateMachine.state self <> VADState.COLLECTING ->
        result = None
        /\ VADStateMachine.state self' = VADStateMachine.state self
        /\ VADStateMachine.current_collector self'
           = VADStateMachine.current_collector self)
    /\ (VADStateMachine.state self = VADState.COLLECTING ->
        exists collector r,
          VADStateMachine.current_collector self = Some collector
          /\ result = Some r
          /\ result_type r = "segment"%string
          /\ segment r
             = Some (SpeechCollector.end_collection collector f)
          /\ frame r = None
          /\ interruption r = None
          /\ VADStateMachine.state self' = VADState.IDLE
          /\ VADStateMachine.current_collector self' = None).
Proof.
  intros Hcoh Hvad Hstart Hend.
  unfold VADStateMachine.process_frame, VADStateMachine._handle_vad_result.
  rewrite Hvad.
  rewrite bool_decide_eq_false_2 by (rewrite Hstart; intros [x Hx]; discriminate).
  rewrite (bool_decide_eq_true_2 _ Hend).
  unfold VADStateMachine._handle_speech_end.
  destruct Hcoh as [Hopen Hclosed].
  destruct (VADStateMachine.state self) eqn:Hs,
           (VADStateMachine.current_collector self) as [c|] eqn:Hcol.
  - exfalso. assert (VADState.IDLE = VADState.COLLECTING) by eauto.
    discriminate.
  - eexists _, _. split; [reflexivity|]. simpl.
    split; [now destruct (VADStateMachine.interruption_manager self)|].
    split; [reflexivity|]. split; [auto|]. intros [=].
  - eexists _, _. split; [reflexivity|]. simpl.
    split; [now destruct (VADStateMachine.interruption_manager self)|].
    split; [reflexivity|]. split; [intros Hne; contradiction|].
    intros _. eexists c, _. repeat split; reflexivity.
  - exfalso. destruct (Hopen eq_refl) as [c Hc]. discriminate.
Qed.

(** A segment opened by frame 1 is closed by frame 2. *)
Lemma end_verdict_handled_witness :
  let m := SpecManager.mk SystemState.COLLECTING
             (Build_InterruptionConfig true 500) None in
  let f1 := Build_AudioFrame 1 (silence 4) 32%Q (start_verdict 512) in
  let f2 := Build_AudioFrame 2 (silence 4) 64%Q (end_verdict 1024) in
  let open := SpeechCollector.Build_t 1 [f1] in
  let self := VADStateMachine.mk "stream_processor"%string VADState.COLLECTING
                (Some open) 1 (Some m) in
  exists result self',
    @VADStateMachine.process_frame _ SpecManager.manager ticking self f2 0
    = (result, self', 2%nat)
    /\ VADStateMachine.interruption_manager self'
       = Some (SpecManager.on_speech_end m 64%Q)
    /\ VADStateMachine.segment_counter self' = 1
    /\ (VADState.COLLECTING <> VADState.COLLECTING ->
        result = None
        /\ VADStateMachine.state self' = VADState.COLLECTING
        /\ VADStateMachine.current_collector self' = Some open)
    /\ (VADState.COLLECTING = VADState.COLLECTING ->
        exists collector r,
          Some open = Some collector
          /\ result = Some r
          /\ result_type r = "segment"%string
          /\ segment r = Some (SpeechCollector.end_collection collector f2)
          /\ frame r = None
          /\ interruption r = None
          /\ VADStateMachine.state self' = VADState.IDLE
          /\ VADStateMachine.current_collector self' = None).
Proof.
  intros m f1 f2 open self.
  apply (@end_verdict_handled _ SpecManager.manager ticking self f2
           {[ "end"%string := 1024 ]} 0%nat).
  - split; [intros _; eexists; reflexivity | reflexivity].
  - reflexivity.
  - vm_compute. reflexivity.
  - vm_compute. eexists. reflexivity.
Defined.

(** ** At most one result per frame *)

(** C7.  Processing a frame returns either nothing or one result, and that
    result is a frame-result (carrying the frame), a segment-result
    (carrying a segment) or an interruption-result (carrying the event). *)
Theorem one_result_per_frame {M : Type} `{!InterruptionManager M}
  (time_time : nat -> Q) (self : VADStateMachine.t M) (f : AudioFrame)
  (clock : nat) :
  exists result self',
    VADStateMachine.process_frame time_time self f clock
    = (result, self', S (S clock))
    /\ match result with
       | None => True
       | Some r =>
           (result_type r = "frame"%string
            /\ frame r = Some f /\ segment r = None /\ interruption r = None)
           \/ (result_type r = "segment"%string
               /\ frame r = None /\ is_Some (segment r)
               /\ interruption r = None)
           \/ (result_type r = "interruption"%string
               /\ frame r = None /\ segment r = None
               /\ is_Some (interruption r))
       end.
Proof.
  unfold VADStateMachine.process_frame, VADStateMachine._handle_vad_result,
    VADStateMachine._handle_no_speech, VADStateMachine._handle_speech_start,
    VADStateMachine._handle_speech_end.
  destruct (vad_result f) as [d|]; repeat case_bool_decide;
    destruct (VADStateMachine.interruption_manager self) as [m|];
    try destruct (on_speech_start m (timestamp_ms f)) as [[ev|] m'];
    destruct (VADStateMachine.state self),
             (VADStateMachine.current_collector self) as [c|];
    simpl; repeat case_bool_decide; simpl;
    eexists _, _; (split; [reflexivity|]); simpl; auto 10.
Qed.

(** ** Unrecognized verdicts *)

(** C10.  A frame whose verdict is a mapping with neither a 'start' nor an
    'end' key is handled by [_handle_no_speech], like a frame without
    verdict: when collecting, it is appended to the open collector and
    nothing is returned; when idle, a frame-level result carrying it is
    returned and the state machine is unchanged. *)
Theorem unknown_verdict_is_no_speech {M : Type} `{!InterruptionManager M}
  (time_time : nat -> Q) (self : VADStateMachine.t M) (f : AudioFrame)
  (d : gmap string Z) (clock : nat) :
  VADStateMachine.coherent self ->
  vad_result f = Some d ->
  d !! "start"%string = None ->
  d !! "end"%string = None ->
  VADStateMachine._handle_vad_result self f
  = VADStateMachine._handle_no_speech self f
  /\ (VADStateMachine.state self = VADState.COLLECTING ->
      exists collector,
        VADStateMachine.current_collector self = Some collector
        /\ VADStateMachine.process_frame time_time self f clock
           = (None,
              VADStateMachine.mk
                (VADStateMachine.instance_id self) VADState.COLLECTING
                (Some (SpeechCollector.add_frame collector f))
                (VADStateMachine.segment_counter self)
                (VADStateMachine.interruption_manager self),
              S (S clock)))
  /\ (VADStateMachine.state self = VADState.IDLE ->
      VADStateMachine.process_frame time_time self f clock
      = (Some (Build_CascadeResult "frame" (Some f) None None
                 ((time_time (S clock) - time_time clock) * 1000)%Q
                 (VADStateMachine.instance_id self)),
         self, S (S clock))).
Proof.
  intros [Hopen _] Hvad Hstart Hend.
  assert (VADStateMachine._handle_vad_result self f
          = VADStateMachine._handle_no_speech self f) as Hsame.
  { unfold VADStateMachine._handle_vad_result. rewrite Hvad.
    rewrite !bool_decide_eq_false_2; [reflexivity| |];
      intros [x Hx]; congruence. }
  split; [exact Hsame|].
  unfold VADStateMachine.process_frame. rewrite Hsame.
  unfold VADStateMachine._handle_no_speech.
  split; intros Hs; rewrite Hs.
  - destruct (Hopen Hs) as [c Hc]. exists c. rewrite Hc.
    split; reflexivity.
  - reflexivity.
Qed.

(** While a segment is open, a frame with verdict [{}] joins it. *)
Lemma unknown_verdict_is_no_speech_witness :
  let m := SpecManager.mk SystemState.COLLECTING
             (Build_InterruptionConfig true 500) None in
  let f1 := Build_AudioFrame 1 (silence 4) 32%Q (start_verdict 512) in
  let f2 := Build_AudioFrame 2 (silence 4) 64%Q (Some ∅) in
  let self := VADStateMachine.mk "stream_processor"%string VADState.COLLECTING
                (Some (SpeechCollector.Build_t 1 [f1])) 1 (Some m) in
  @VADStateMachine.process_frame _ SpecManager.manager ticking self f2 0
  = (None,
     VADStateMachine.mk "stream_processor"%string VADState.COLLECTING
       (Some (SpeechCollector.Build_t 1 [f1; f2])) 1 (Some m),
     2%nat).
Proof.
  intros m f1 f2 self.
  destruct (@unknown_verdict_is_no_speech _ SpecManager.manager ticking self
              f2 ∅ 0%nat) as (_ & Hcollecting & _).
  - split; [intros _; eexists; reflexivity | reflexivity].
  - reflexivity.
  - reflexivity.
  - reflexivity.
  - destruct (Hcollecting eq_refl) as (c & Hc & Hrun).
    injection Hc as <-. exact Hrun.
Defined.

(** * Properties of the processor *)

Section ProcessorFacts.
Context {M Model Iter : Type} `{!InterruptionManager M} `{!SileroVad Model Iter}.
Variable time_time : nat -> Q.

Import StreamProcessor.

Local Arguments FrameAlignedBuffer.frame_bytes : simpl never.

Lemma frame_bytes_pos : (0 < FrameAlignedBuffer.frame_bytes)%nat.
Proof. vm_compute. lia. Qed.

Lemma has_complete_frame_iff (b : FrameAlignedBuffer.t) :
  FrameAlignedBuffer.has_complete_frame b = true
  <-> (FrameAlignedBuffer.frame_bytes
       <= length (FrameAlignedBuffer.buffer b))%nat.
Proof. unfold FrameAlignedBuffer.has_complete_frame. apply bool_decide_eq_true. Qed.

(** What [read_frame] gives when a complete frame is buffered. *)
Lemma read_frame_complete (b : FrameAlignedBuffer.t) :
  FrameAlignedBuffer.has_complete_frame b = true ->
  exists frame_data b',
    FrameAlignedBuffer.read_frame b = Some (frame_data, b')
    /\ frame_data
       = take FrameAlignedBuffer.frame_bytes (FrameAlignedBuffer.buffer b)
    /\ frame_data <> []
    /\ FrameAlignedBuffer.buffer b'
       = drop FrameAlignedBuffer.frame_bytes (FrameAlignedBuffer.buffer b)
    /\ (length (FrameAlignedBuffer.buffer b') + FrameAlignedBuffer.frame_bytes
        = length (FrameAlignedBuffer.buffer b))%nat.
Proof.
  intros Hc. unfold FrameAlignedBuffer.read_frame. rewrite Hc.
  apply has_complete_frame_iff in Hc. pose proof frame_bytes_pos as Hpos.
  eexists _, _. split; [reflexivity|]. split; [reflexivity|].
  cbn [FrameAlignedBuffer.buffer]. split; [|split; [reflexivity|]].
  - intros Hnil. apply (f_equal length) in Hnil.
    rewrite length_take in Hnil. cbn [length] in Hnil. lia.
  - rewrite length_drop. lia.
Qed.

Lemma complete_frames_none (b : FrameAlignedBuffer.t) :
  FrameAlignedBuffer.has_complete_frame b = false ->
  FrameAlignedBuffer.complete_frames b = [].
Proof.
  intros Hc. unfold FrameAlignedBuffer.complete_frames.
  assert (length (FrameAlignedBuffer.buffer b)
          < FrameAlignedBuffer.frame_bytes)%nat as Hlt.
  { destruct (decide (FrameAlignedBuffer.frame_bytes
                      <= length (FrameAlignedBuffer.buffer b))%nat) as [Hle|];
      [|lia].
    apply has_complete_frame_iff in Hle. congruence. }
  rewrite Nat.div_small by exact Hlt. reflexivity.
Qed.

Lemma complete_frames_some (b b' : FrameAlignedBuffer.t) frame_data :
  FrameAlignedBuffer.read_frame b = Some (frame_data, b') ->
  FrameAlignedBuffer.complete_frames b
  = frame_data :: FrameAlignedBuffer.complete_frames b'.
Proof.
  unfold FrameAlignedBuffer.read_frame.
  destruct (FrameAlignedBuffer.has_complete_frame b) eqn:Hc; [|discriminate].
  intros [= <- <-]. apply has_complete_frame_iff in Hc.
  pose proof frame_bytes_pos as Hpos.
  unfold FrameAlignedBuffer.complete_frames.
  cbn [FrameAlignedBuffer.buffer]. rewrite length_drop.
  replace (length (FrameAlignedBuffer.buffer b) / FrameAlignedBuffer.frame_bytes)%nat
    with (S ((length (FrameAlignedBuffer.buffer b)
              - FrameAlignedBuffer.frame_bytes)
             / FrameAlignedBuffer.frame_bytes))%nat; [reflexivity|].
  set (n := FrameAlignedBuffer.frame_bytes) in *.
  set (l := length (FrameAlignedBuffer.buffer b)) in *.
  replace l with ((l - n) + 1 * n)%nat at 2 by lia.
  rewrite Nat.div_add by lia. lia.
Qed.

(** One pass through the loop body, when a complete frame is buffered. *)
Lemma loop_body_spec (self : t M Model Iter) results clock :
  FrameAlignedBuffer.has_complete_frame (frame_buffer self) = true ->
  exists frame_data buffer',
    FrameAlignedBuffer.read_frame (frame_buffer self)
    = Some (frame_data, buffer')
    /\ (length (FrameAlignedBuffer.buffer buffer')
        + FrameAlignedBuffer.frame_bytes
        = length (FrameAlignedBuffer.buffer (frame_buffer self)))%nat
    /\ match vad_iterator self with
       | None =>
           loop_body time_time self results clock
           = BodyRaised (set_frame_buffer self buffer')
       | Some it =>
           match vad_call it frame_data with
           | (Raises, it') =>
               loop_body time_time self results clock
               = BodyRaised
                   (set_vad_iterator (set_frame_buffer self buffer') (Some it'))
           | (Returns v, it') =>
               exists self' results',
                 loop_body time_time self results clock
                 = BodyNext self' results' (S (S clock))
                 /\ frame_buffer self' = buffer'
                 /\ vad_iterator self' = Some it'
                 /\ frame_counter self' = frame_counter self + 1
                 /\ frames_built self'
                    = frames_built self
                      ++ [Build_AudioFrame
                            (frame_counter self + 1) frame_data
                            (inject_Z (frame_counter self + 1) * 32)%Q v]
                 /\ error_count self' = error_count self
           end
       end.
Proof.
  intros Hc.
  destruct (read_frame_complete _ Hc) as (fd & b' & Hread & _ & Hne & _ & Hlen).
  exists fd, b'. split; [exact Hread|]. split; [exact Hlen|].
  unfold loop_body. rewrite Hread.
  rewrite (bool_decide_eq_false_2 _ Hne).
  cbn [vad_iterator set_frame_buffer].
  destruct (vad_iterator self) as [it|]; [|reflexivity].
  destruct (vad_call it fd) as [[v|] it']; [|reflexivity].
  unfold VADStateMachine.process_frame.
  destruct (VADStateMachine._handle_vad_result _ _) as [[r|] sm'].
  - eexists _, _. split; [reflexivity|].
    destruct (is_speech_segment _); repeat split; reflexivity.
  - eexists _, _. split; [reflexivity|]. repeat split; reflexivity.
Qed.

Lemma loop_body_no_frame (self : t M Model Iter) results clock :
  FrameAlignedBuffer.has_complete_frame (frame_buffer self) = false ->
  loop_body time_time self results clock = BodyBreak self.
Proof.
  intros Hc. unfold loop_body, FrameAlignedBuffer.read_frame.
  rewrite Hc. reflexivity.
Qed.

(** A property that every pass through the body keeps holds when the loop
    is left. *)
Lemma frame_loop_invariant (P : t M Model Iter -> Prop) :
  (forall self results clock,
      P self ->
      match loop_body time_time self results clock with
      | BodyNext self' _ _ | BodyBreak self' | BodyRaised self' => P self'
      end) ->
  forall fuel self results clock,
    P self ->
    match frame_loop time_time fuel self results clock with
    | LoopDone _ self' _ | LoopRaised self' _ => P self'
    | LoopFuel => True
    end.
Proof.
  intros Hbody fuel.
  induction fuel as [|fuel IH]; intros self results clock HP; simpl;
    destruct (FrameAlignedBuffer.has_complete_frame (frame_buffer self));
    try exact HP; try exact I.
  specialize (Hbody self results clock HP).
  destruct (loop_body time_time self results clock) as [s r c|s|s];
    [apply IH|..]; exact Hbody.
Qed.

(** The loop is left before the fuel runs out. *)
Lemma frame_loop_terminates fuel (self : t M Model Iter) results clock :
  (length (FrameAlignedBuffer.buffer (frame_buffer self)) <= fuel)%nat ->
  frame_loop time_time fuel self results clock <> LoopFuel.
Proof.
  revert self results clock.
  induction fuel as [|fuel IH]; intros self results clock Hfuel; simpl;
    destruct (FrameAlignedBuffer.has_complete_frame (frame_buffer self))
      eqn:Hc; try discriminate.
  - apply has_complete_frame_iff in Hc. pose proof frame_bytes_pos. lia.
  - destruct (loop_body_spec self results clock Hc)
      as (fd & b' & _ & Hlen & Hbody).
    pose proof frame_bytes_pos as Hpos.
    destruct (vad_iterator self) as [it|]; [|rewrite Hbody; discriminate].
    destruct (vad_call it fd) as [[v|] it']; [|rewrite Hbody; discriminate].
    destruct Hbody as (s & r & -> & Hbuf & _). apply IH. rewrite Hbuf. lia.
Qed.

Lemma numbered_loop_body (self : t M Model Iter) results clock :
  numbered self ->
  match loop_body time_time self results clock with
  | BodyNext self' _ _ | BodyBreak self' | BodyRaised self' => numbered self'
  end.
Proof.
  intros (Hpos & Hids & Hstamps).
  destruct (FrameAlignedBuffer.has_complete_frame (frame_buffer self)) eqn:Hc.
  - destruct (loop_body_spec self results clock Hc) as (fd & b' & _ & _ & Hbody).
    destruct (vad_iterator self) as [it|];
      [|rewrite Hbody; repeat split; assumption].
    destruct (vad_call it fd) as [[v|] it'];
      [|rewrite Hbody; repeat split; assumption].
    destruct Hbody as (s & r & -> & _ & _ & Hcount & Hbuilt & _).
    unfold numbered. rewrite Hcount, Hbuilt. split; [lia|]. split.
    + rewrite map_app, Hids, seqZ_app by lia. f_equal. simpl.
      rewrite seqZ_cons, seqZ_nil by lia. f_equal. lia.
    + apply Forall_app. split; [exact Hstamps|].
      constructor; [reflexivity|constructor].
  - rewrite loop_body_no_frame by exact Hc. repeat split; assumption.
Qed.

Lemma numbered_frame_loop fuel (self : t M Model Iter) results clock :
  numbered self ->
  match frame_loop time_time fuel self results clock with
  | LoopDone _ self' _ | LoopRaised self' _ => numbered self'
  | LoopFuel => True
  end.
Proof. apply (frame_loop_invariant numbered), numbered_loop_body. Qed.

Lemma numbered_ext (a b : t M Model Iter) :
  frame_counter b = frame_counter a ->
  frames_built b = frames_built a ->
  numbered a -> numbered b.
Proof. unfold numbered. intros -> ->. trivial. Qed.

Lemma numbered_process_chunk_internal (self : t M Model Iter) data clock :
  numbered self ->
  numbered (snd (fst (_process_chunk_internal time_time self data clock))).
Proof.
  intros Hn. unfold _process_chunk_internal.
  destruct (FrameAlignedBuffer.write (frame_buffer self) data) as [b'|];
    [|exact Hn].
  pose proof (numbered_frame_loop
                (length (FrameAlignedBuffer.buffer b'))
                (set_frame_buffer self b') [] (S clock) Hn) as Hloop.
  destruct (frame_loop _ _ _ _ _) as [results s c|s c|]; [| |exact Hn].
  - eapply numbered_ext; [| |exact Hloop];
      unfold _record_processing_time; case_bool_decide; reflexivity.
  - exact Hloop.
Qed.

Lemma numbered_process_chunk (self : t M Model Iter) data clock :
  numbered self ->
  numbered (snd (fst (process_chunk time_time self data clock))).
Proof.
  intros Hn. unfold process_chunk.
  destruct (vad_iterator self); [|exact Hn].
  destruct (_validate_audio_chunk data); [exact Hn|].
  pose proof (numbered_process_chunk_internal self data clock Hn) as Hi.
  destruct (_process_chunk_internal time_time self data clock)
    as [[[results|e|] s] c]; exact Hi.
Qed.

Lemma numbered_new (config : Config) (self : t M Model Iter) :
  new config = Returned self -> numbered self.
Proof.
  unfold new. destruct (_validate_config config); [discriminate|].
  intros [= <-]. repeat split; [simpl; lia|constructor].
Qed.

Lemma numbered_step (call : Session.Call Model) (self : t M Model Iter) clock :
  numbered self -> numbered (fst (Session.step time_time call self clock)).
Proof.
  intros Hn. destruct call as [loaded|data| | | |s]; simpl; try exact Hn.
  - unfold initialize. destruct (is_initialized self); [exact Hn|].
    destruct loaded; exact Hn.
  - pose proof (numbered_process_chunk self data clock Hn) as Hp.
    destruct (process_chunk time_time self data clock) as [[out s] c].
    exact Hp.
Qed.

Lemma numbered_run (calls : list (Session.Call Model)) (self : t M Model Iter)
  clock :
  numbered self -> numbered (fst (Session.run time_time calls self clock)).
Proof.
  revert self clock.
  induction calls as [|call calls IH]; intros self clock Hn; simpl;
    [exact Hn|].
  pose proof (numbered_step call self clock Hn) as Hs.
  destruct (Session.step time_time call self clock) as [s c]. apply IH, Hs.
Qed.

(** [process_chunk] always returns or raises. *)
Lemma process_chunk_terminates (self : t M Model Iter) data clock :
  fst (fst (process_chunk time_time self data clock)) <> Diverged.
Proof.
  unfold process_chunk.
  destruct (vad_iterator self); [|discriminate].
  destruct (_validate_audio_chunk data); [discriminate|].
  unfold _process_chunk_internal.
  destruct (FrameAlignedBuffer.write (frame_buffer self) data) as [b'|];
    [|discriminate].
  pose proof (frame_loop_terminates
                (length (FrameAlignedBuffer.buffer b'))
                (set_frame_buffer self b') [] (S clock) (Nat.le_refl _)) as Hfuel.
  destruct (frame_loop _ _ _ _ _); [discriminate|discriminate|contradiction].
Qed.

(** When the iterator raises on one of the buffered frames, the loop is
    left by that exception; the error counter is not touched inside it. *)
Lemma frame_loop_raises fuel (self : t M Model Iter) results clock it :
  vad_iterator self = Some it ->
  oracle_raises it (FrameAlignedBuffer.complete_frames (frame_buffer self))
  = true ->
  (length (FrameAlignedBuffer.buffer (frame_buffer self)) <= fuel)%nat ->
  exists self' clock',
    frame_loop time_time fuel self results clock = LoopRaised self' clock'
    /\ error_count self' = error_count self.
Proof.
  revert self results clock it.
  induction fuel as [|fuel IH]; intros self results clock it Hit Hraises Hfuel;
    simpl;
    destruct (FrameAlignedBuffer.has_complete_frame (frame_buffer self))
      eqn:Hc;
    try (rewrite (complete_frames_none _ Hc) in Hraises; discriminate).
  - apply has_complete_frame_iff in Hc. pose proof frame_bytes_pos. lia.
  - destruct (loop_body_spec self results clock Hc)
      as (fd & b' & Hread & Hlen & Hbody).
    rewrite (complete_frames_some _ _ _ Hread) in Hraises.
    rewrite Hit in Hbody. simpl in Hraises.
    destruct (vad_call it fd) as [[v|] it'].
    + destruct Hbody as (s & r & -> & Hbuf & Hit' & _ & _ & Herr).
      rewrite <- Hbuf in Hraises, Hlen.
      destruct (IH s r (S (S clock)) it' Hit' Hraises) as (s' & c' & -> & He);
        [pose proof frame_bytes_pos; lia|].
      eexists _, _. split; [reflexivity|]. congruence.
    + rewrite Hbody. eexists _, _. split; reflexivity.
Qed.

End ProcessorFacts.

(** ** Frame ids *)

(** C2, as the code has it.  Over the whole life of a processor object,
    whatever calls are made on it, the frames built are numbered 1, 2, 3,
    ... without gaps, and the frame counter is their number.  [close] is
    among the calls and leaves the counter as it is: the numbering goes on
    after a [close] and a new [initialize]; only a newly constructed
    processor starts again at 1. *)
Theorem frame_ids_consecutive {M Model Iter : Type}
  `{!InterruptionManager M} `{!SileroVad Model Iter} (time_time : nat -> Q)
  (config : Config) (fresh : StreamProcessor.t M Model Iter)
  (calls : list (Session.Call Model)) (clock : nat) :
  StreamProcessor.new config = Returned fresh ->
  StreamProcessor.frames_built fresh = []
  /\ (let self := fst (Session.run time_time calls fresh clock) in
      map frame_id (StreamProcessor.frames_built self)
      = seqZ 1 (Z.of_nat (length (StreamProcessor.frames_built self)))
      /\ StreamProcessor.frame_counter self
         = Z.of_nat (length (StreamProcessor.frames_built self))
      /\ StreamProcessor.frame_counter (snd (StreamProcessor.close self))
         = StreamProcessor.frame_counter self).
Proof.
  intros Hnew. split.
  { unfold StreamProcessor.new in Hnew.
    destruct (StreamProcessor._validate_config config); [discriminate|].
    injection Hnew as <-. reflexivity. }
  pose proof (numbered_run time_time calls fresh clock
                (numbered_new config fresh Hnew)) as (Hpos & Hids & _).
  cbv zeta.
  set (self := fst (Session.run time_time calls fresh clock)) in *.
  assert (StreamProcessor.frame_counter self
          = Z.of_nat (length (StreamProcessor.frames_built self))) as Hcount.
  { apply (f_equal length) in Hids.
    rewrite length_map, length_seqZ in Hids. lia. }
  split; [|split; [exact Hcount|reflexivity]].
  rewrite <- Hcount. exact Hids.
Qed.

(** One frame before a [close], one after it: the ids are 1 and 2. *)
Lemma frame_ids_consecutive_witness :
  exists fresh : StreamProcessor.t SpecManager.t (list VadOutcome)
                                   (list VadOutcome),
    @StreamProcessor.new _ _ _ SpecManager.manager default_config
    = Returned fresh
    /\ StreamProcessor.frames_built fresh = []
    /\ (let self :=
          fst (@Session.run _ _ _ SpecManager.manager ScriptedVad.oracle
                 ticking
                 [Session.Initialize (Some []);
                  Session.ProcessChunk (silence 1024);
                  Session.Close;
                  Session.Initialize (Some []);
                  Session.ProcessChunk (silence 1024)]
                 fresh 0) in
        map frame_id (StreamProcessor.frames_built self)
        = seqZ 1 (Z.of_nat (length (StreamProcessor.frames_built self)))
        /\ StreamProcessor.frame_counter self
           = Z.of_nat (length (StreamProcessor.frames_built self))
        /\ StreamProcessor.frame_counter (snd (StreamProcessor.close self))
           = StreamProcessor.frame_counter self).
Proof.
  eexists. split; [reflexivity|].
  apply (@frame_ids_consecutive _ _ _ SpecManager.manager ScriptedVad.oracle
           ticking default_config).
  reflexivity.
Defined.

(** C2, as stated, fails: after [close] and a new [initialize], the next
    complete frame gets id 2, not 1. *)
Lemma frame_ids_not_restarted_by_close :
  exists fresh reopened : StreamProcessor.t SpecManager.t (list VadOutcome)
                                          (list VadOutcome),
    @StreamProcessor.new _ _ _ SpecManager.manager default_config
    = Returned fresh
    /\ reopened
       = fst (@Session.run _ _ _ SpecManager.manager ScriptedVad.oracle
                ticking
                [Session.Initialize (Some []);
                 Session.ProcessChunk (silence 1024);
                 Session.Close;
                 Session.Initialize (Some [])]
                fresh 0)
    /\ map frame_id (StreamProcessor.frames_built reopened) = [1]
    /\ (let self :=
          snd (fst (@StreamProcessor.process_chunk
                      _ _ _ SpecManager.manager ScriptedVad.oracle ticking
                      reopened (silence 1024) 0)) in
        map frame_id (StreamProcessor.frames_built self) = [1; 2]
        /\ last (map frame_id (StreamProcessor.frames_built self)) <> Some 1).
Proof.
  eexists _, _. split; [reflexivity|]. split; [reflexivity|].
  split; [vm_compute; reflexivity|].
  cbv zeta. split; [vm_compute; reflexivity|].
  vm_compute. discriminate.
Qed.

(** ** Frame timestamps *)

(** C9.  Every frame built in a session has as timestamp, in milliseconds,
    32 times its frame id. *)
Theorem frame_timestamp_is_id_times_32 {M Model Iter : Type}
  `{!InterruptionManager M} `{!SileroVad Model Iter} (time_time : nat -> Q)
  (config : Config) (fresh : StreamProcessor.t M Model Iter)
  (calls : list (Session.Call Model)) (clock : nat) :
  StreamProcessor.new config = Returned fresh ->
  Forall (fun f => timestamp_ms f = (inject_Z (frame_id f) * 32)%Q)
         (StreamProcessor.frames_built
            (fst (Session.run time_time calls fresh clock))).
Proof.
  intros Hnew.
  pose proof (numbered_run time_time calls fresh clock
                (numbered_new config fresh Hnew)) as (_ & _ & Hstamps).
  exact Hstamps.
Qed.

Lemma frame_timestamp_is_id_times_32_witness :
  exists fresh : StreamProcessor.t SpecManager.t (list VadOutcome)
                                   (list VadOutcome),
    @StreamProcessor.new _ _ _ SpecManager.manager default_config
    = Returned fresh
    /\ Forall (fun f => timestamp_ms f = (inject_Z (frame_id f) * 32)%Q)
         (StreamProcessor.frames_built
            (fst (@Session.run _ _ _ SpecManager.manager ScriptedVad.oracle
                    ticking
                    [Session.Initialize (Some [Returns (start_verdict 0)]);
                     Session.ProcessChunk (silence 2048)]
                    fresh 0))).
Proof.
  eexists. split; [reflexivity|].
  apply (@frame_timestamp_is_id_times_32
           _ _ _ SpecManager.manager ScriptedVad.oracle ticking
           default_config).
  reflexivity.
Defined.

(** ** Failures of the oracle *)

(** C3.  When the iterator raises on one of the complete frames that are
    buffered once the chunk is written, [process_chunk] raises a
    [CascadeError] with code [PROCESSING_FAILED] and the error counter is
    one more than before.  The call raises instead of returning: the
    results of the earlier frames of the chunk are not handed to the
    caller. *)
Theorem oracle_failure_raises {M Model Iter : Type}
  `{!InterruptionManager M} `{!SileroVad Model Iter} (time_time : nat -> Q)
  (self : StreamProcessor.t M Model Iter) (audio_data : list byte)
  (clock : nat) (it : Iter) (written : FrameAlignedBuffer.t) :
  StreamProcessor.vad_iterator self = Some it ->
  _validate_audio_chunk audio_data = None ->
  FrameAlignedBuffer.write (StreamProcessor.frame_buffer self) audio_data
  = Some written ->
  StreamProcessor.oracle_raises
    it (FrameAlignedBuffer.complete_frames written) = true ->
  exists e self' clock',
    StreamProcessor.process_chunk time_time self audio_data clock
    = (Raised e, self', clock')
    /\ ProcessingError e
    /\ StreamProcessor.error_count self'
       = StreamProcessor.error_count self + 1.
Proof.
  intros Hit Hvalid Hwrite Hraises.
  unfold StreamProcessor.process_chunk. rewrite Hit, Hvalid.
  unfold StreamProcessor._process_chunk_internal. rewrite Hwrite.
  destruct (frame_loop_raises time_time
              (length (FrameAlignedBuffer.buffer written))
              (StreamProcessor.set_frame_buffer self written) [] (S clock) it
              Hit Hraises (Nat.le_refl _)) as (s & c & -> & Herr).
  eexists _, _, _. split; [reflexivity|]. split; [reflexivity|].
  simpl. simpl in Herr. rewrite Herr. reflexivity.
Qed.

(** A chunk of two frames; the iterator answers the first and raises on
    the second.  The first frame was turned into a frame-level result (it
    is counted) which the caller does not get. *)
Lemma oracle_failure_raises_witness :
  let self : StreamProcessor.t SpecManager.t (list VadOutcome)
                                (list VadOutcome) :=
    StreamProcessor.mk default_config (FrameAlignedBuffer.new 128000)
      (VADStateMachine.new "stream_processor"
         (Some (SpecManager.new (interruption_config default_config))))
      (Some [Returns None; Raises]) (Some [Returns None; Raises])
      0 0 0%Q 0 0 0 [] 100 0%Q true [] in
  (exists e self' clock',
      @StreamProcessor.process_chunk _ _ _ SpecManager.manager
        ScriptedVad.oracle ticking self (silence 2048) 0
      = (Raised e, self', clock')
      /\ ProcessingError e
      /\ StreamProcessor.error_count self'
         = StreamProcessor.error_count self + 1)
  /\ StreamProcessor.single_frames_count
       (snd (fst (@StreamProcessor.process_chunk _ _ _ SpecManager.manager
                    ScriptedVad.oracle ticking self (silence 2048) 0)))
     = 1.
Proof.
  intros self. split; [|vm_compute; reflexivity].
  apply (@oracle_failure_raises _ _ _ SpecManager.manager ScriptedVad.oracle
           ticking self (silence 2048) 0%nat [Returns None; Raises]
           (FrameAlignedBuffer.mk (silence 2048) 128000)).
  - reflexivity.
  - vm_compute. reflexivity.
  - vm_compute. reflexivity.
  - vm_compute. reflexivity.
Defined.

(** ** Validation of chunks *)

(** C5.  When [process_chunk] raises an input error, the processor is the
    one it was before the call (buffer, frame counter, state machine and
    statistics included), and no clock reading was taken. *)
Theorem input_error_changes_nothing {M Model Iter : Type}
  `{!InterruptionManager M} `{!SileroVad Model Iter} (time_time : nat -> Q)
  (self self' : StreamProcessor.t M Model Iter) (audio_data : list byte)
  (clock clock' : nat) (e : CascadeError) :
  StreamProcessor.process_chunk time_time self audio_data clock
  = (Raised e, self', clock') ->
  InputError e ->
  self' = self /\ clock' = clock
  /\ _validate_audio_chunk audio_data = Some e
  /\ (Z.of_nat (length audio_data) > MAX_CHUNK_SIZE
      \/ Z.of_nat (length audio_data) mod 2 <> 0).
Proof.
  unfold StreamProcessor.process_chunk.
  destruct (StreamProcessor.vad_iterator self).
  2:{ intros [= <- <- <-] [He|He]; discriminate. }
  destruct (_validate_audio_chunk audio_data) as [e0|] eqn:Hvalid.
  - intros [= <- <- <-] _. repeat split.
    unfold _validate_audio_chunk in Hvalid.
    repeat case_bool_decide; try discriminate; auto.
  - unfold StreamProcessor._process_chunk_internal.
    destruct (FrameAlignedBuffer.write _ _) as [b'|].
    2:{ intros [= <- <- <-] [He|He]; discriminate. }
    destruct (StreamProcessor.frame_loop _ _ _ _ _) as [results s c|s c|];
      intros [= <- <- <-] [He|He]; discriminate.
Qed.

Lemma input_error_changes_nothing_witness :
  let self : StreamProcessor.t SpecManager.t (list VadOutcome)
                                (list VadOutcome) :=
    StreamProcessor.mk default_config
      (FrameAlignedBuffer.mk (silence 10) 128000)
      (VADStateMachine.new "stream_processor"
         (Some (SpecManager.new (interruption_config default_config))))
      (Some []) (Some []) 7 3 96%Q 1 6 2 [32%Q; 32%Q; 32%Q] 100 5%Q true [] in
  let e := Build_CascadeError AUDIO_CORRUPTION HIGH in
  self = self /\ 4%nat = 4%nat
  /\ _validate_audio_chunk (silence 3) = Some e
  /\ (Z.of_nat (length (silence 3)) > MAX_CHUNK_SIZE
      \/ Z.of_nat (length (silence 3)) mod 2 <> 0).
Proof.
  intros self e.
  apply (@input_error_changes_nothing _ _ _ SpecManager.manager
           ScriptedVad.oracle ticking self self (silence 3) 4%nat 4%nat e).
  - reflexivity.
  - right. reflexivity.
Defined.

(** C4, as the code has it.  On an initialized processor: a zero-length
    chunk returns the empty list of results and raises nothing when no
    complete frame is pending in the buffer; a chunk of odd length raises
    an input error; a chunk of more than 512 KiB raises an input error. *)
Theorem chunk_boundaries {M Model Iter : Type}
  `{!InterruptionManager M} `{!SileroVad Model Iter} (time_time : nat -> Q)
  (self : StreamProcessor.t M Model Iter) (it : Iter) (clock : nat) :
  StreamProcessor.vad_iterator self = Some it ->
  (FrameAlignedBuffer.has_complete_frame (StreamProcessor.frame_buffer self)
   = false ->
   AUDIO_FRAME_SIZE
   <= FrameAlignedBuffer.max_buffer_samples (StreamProcessor.frame_buffer self) ->
   exists self',
     StreamProcessor.process_chunk time_time self [] clock
     = (Returned [], self', S (S (S clock)))
     /\ StreamProcessor.frame_buffer self' = StreamProcessor.frame_buffer self
     /\ StreamProcessor.state_machine self' = StreamProcessor.state_machine self
     /\ StreamProcessor.frame_counter self' = StreamProcessor.frame_counter self
     /\ StreamProcessor.error_count self' = StreamProcessor.error_count self)
  /\ (forall audio_data,
         Z.of_nat (length audio_data) mod 2 = 1 ->
         exists e,
           StreamProcessor.process_chunk time_time self audio_data clock
           = (Raised e, self, clock)
           /\ InputError e)
  /\ (forall audio_data,
         Z.of_nat (length audio_data) > 512 * 1024 ->
         exists e,
           StreamProcessor.process_chunk time_time self audio_data clock
           = (Raised e, self, clock)
           /\ InputError e).
Proof.
  intros Hit. unfold StreamProcessor.process_chunk. rewrite Hit.
  split; [|split].
  - intros Hnone Hcap.
    assert (_validate_audio_chunk [] = None) as -> by reflexivity.
    unfold StreamProcessor._process_chunk_internal, FrameAlignedBuffer.write.
    rewrite bool_decide_eq_false_2.
    2:{ unfold FrameAlignedBuffer.has_complete_frame in Hnone.
        apply bool_decide_eq_false in Hnone.
        assert (Z.of_nat FrameAlignedBuffer.frame_bytes = 1024) as Hfb
            by reflexivity.
        unfold AUDIO_FRAME_SIZE in Hcap. cbn [length]. lia. }
    rewrite app_nil_r.
    destruct self as [cfg [buf cap] sm mdl vit fc tc tt sc fc' ec pt mpt lpt ini fb].
    cbn [StreamProcessor.frame_buffer StreamProcessor.set_frame_buffer
         FrameAlignedBuffer.buffer FrameAlignedBuffer.max_buffer_samples] in *.
    assert (forall fuel results c,
               StreamProcessor.frame_loop time_time fuel
                 (StreamProcessor.mk cfg (FrameAlignedBuffer.mk buf cap) sm mdl
                    vit fc tc tt sc fc' ec pt mpt lpt ini fb) results c
               = StreamProcessor.LoopDone results
                   (StreamProcessor.mk cfg (FrameAlignedBuffer.mk buf cap) sm
                      mdl vit fc tc tt sc fc' ec pt mpt lpt ini fb) c) as ->.
    { intros fuel results c.
      destruct fuel; cbn [StreamProcessor.frame_loop StreamProcessor.frame_buffer];
        rewrite Hnone; reflexivity. }
    eexists. split; [reflexivity|].
    unfold StreamProcessor._record_processing_time.
    case_bool_decide; repeat split; reflexivity.
  - intros audio_data Hodd. unfold _validate_audio_chunk.
    rewrite bool_decide_eq_false_2 by (intros Hz; rewrite Hz in Hodd; discriminate).
    case_bool_decide.
    + eexists. split; [reflexivity|]. left. reflexivity.
    + rewrite bool_decide_eq_true_2 by (rewrite Hodd; discriminate).
      eexists. split; [reflexivity|]. right. reflexivity.
  - intros audio_data Hbig. unfold _validate_audio_chunk.
    rewrite bool_decide_eq_false_2 by lia.
    rewrite bool_decide_eq_true_2 by (unfold MAX_CHUNK_SIZE; lia).
    eexists. split; [reflexivity|]. left. reflexivity.
Qed.

Lemma chunk_boundaries_witness :
  let self : StreamProcessor.t SpecManager.t (list VadOutcome)
                                (list VadOutcome) :=
    StreamProcessor.mk default_config
      (FrameAlignedBuffer.mk (silence 10) 128000)
      (VADStateMachine.new "stream_processor"
         (Some (SpecManager.new (interruption_config default_config))))
      (Some []) (Some []) 7 3 96%Q 1 6 2 [32%Q; 32%Q; 32%Q] 100 5%Q true [] in
  let run :=
    @StreamProcessor.process_chunk _ _ _ SpecManager.manager
      ScriptedVad.oracle ticking self in
  (exists self', run [] 0%nat = (Returned [], self', 3%nat))
  /\ (exists e, run (silence 3) 0%nat = (Raised e, self, 0%nat)
                /\ InputError e)
  /\ (exists e, run (silence (Z.to_nat (512 * 1024 + 1))) 0%nat
                = (Raised e, self, 0%nat)
                /\ InputError e).
Proof.
  intros self run.
  destruct (@chunk_boundaries _ _ _ SpecManager.manager ScriptedVad.oracle
              ticking self [] 0%nat eq_refl) as (Hempty & Hodd & Hbig).
  split; [|split].
  - destruct Hempty as (self' & Hrun & _);
      [reflexivity | vm_compute; discriminate |].
    exists self'. exact Hrun.
  - apply Hodd. reflexivity.
  - apply Hbig. unfold silence. rewrite length_replicate, Z2Nat.id; lia.
Defined.

(** C4, as stated, fails for the zero-length chunk.  A chunk of two frames
    is written, the iterator raises on the first, and the second stays in
    the buffer; the zero-length chunk sent next returns the frame-level
    result of that second frame. *)
Lemma empty_chunk_returns_pending_frame :
  exists (fresh failed : StreamProcessor.t SpecManager.t (list VadOutcome)
                                           (list VadOutcome)) clock,
    @StreamProcessor.new _ _ _ SpecManager.manager default_config
    = Returned fresh
    /\ (failed, clock)
       = @Session.run _ _ _ SpecManager.manager ScriptedVad.oracle ticking
           [Session.Initialize (Some [Raises]);
            Session.ProcessChunk (silence 2048)]
           fresh 0
    /\ StreamProcessor.is_initialized failed = true
    /\ StreamProcessor.vad_iterator failed = Some []
    /\ exists r self' clock',
        @StreamProcessor.process_chunk _ _ _ SpecManager.manager
          ScriptedVad.oracle ticking failed [] clock
        = (Returned [r], self', clock')
        /\ result_type r = "frame"%string
        /\ Returned [r] <> Returned [].
Proof.
  eexists _, _, _. split; [reflexivity|].
  split; [vm_compute; reflexivity|].
  split; [reflexivity|]. split; [reflexivity|].
  eexists _, _, _. split; [vm_compute; reflexivity|].
  split; [reflexivity|]. discriminate.
Qed.

(** ** Health warnings *)

(** What the code does: a warning is only logged once more than ten chunks
    were processed. *)
Lemma get_stats_warning_needs_eleven_chunks {M Model Iter : Type}
  (self : StreamProcessor.t M Model Iter) :
  snd (StreamProcessor.get_stats self) <> [] ->
  StreamProcessor.total_chunks_processed self >= 11.
Proof.
  unfold StreamProcessor.get_stats. cbn [snd].
  case_bool_decide; [lia | intros Hne; contradiction].
Qed.

(** C8 at ten chunks.  Ten chunks were processed, one second each: the
    average latency is 1000 ms, above the 100 ms threshold, and [get_stats]
    logs no warning.  After the eleventh chunk it does. *)
Theorem get_stats_silent_at_ten_chunks :
  exists fresh ten eleven : StreamProcessor.t SpecManager.t (list VadOutcome)
                                              (list VadOutcome),
    @StreamProcessor.new _ _ _ SpecManager.manager default_config
    = Returned fresh
    /\ ten
       = fst (@Session.run _ _ _ SpecManager.manager ScriptedVad.oracle ticking
                (Session.Initialize (Some [])
                 :: replicate 10 (Session.ProcessChunk []))
                fresh 0)
    /\ eleven
       = fst (@Session.run _ _ _ SpecManager.manager ScriptedVad.oracle ticking
                (Session.Initialize (Some [])
                 :: replicate 11 (Session.ProcessChunk []))
                fresh 0)
    /\ StreamProcessor.total_chunks_processed ten = 10
    /\ (average_processing_time_ms (fst (StreamProcessor.get_stats ten))
        == 1000)%Q
    /\ snd (StreamProcessor.get_stats ten) = []
    /\ snd (StreamProcessor.get_stats eleven) = [SlowProcessing].
Proof.
  eexists _, _, _. split; [reflexivity|].
  split; [reflexivity|]. split; [reflexivity|].
  split; [vm_compute; reflexivity|].
  split; [vm_compute; reflexivity|].
  split; vm_compute; reflexivity.
Qed.

(** * Further properties of the processor loop *)

Section LoopFacts.
Context {M Model Iter : Type} `{!InterruptionManager M} `{!SileroVad Model Iter}.
Variable time_time : nat -> Q.

Import StreamProcessor.

Local Arguments FrameAlignedBuffer.frame_bytes : simpl never.

Lemma loop_body_step (self : t M Model Iter) results clock :
  FrameAlignedBuffer.has_complete_frame (frame_buffer self) = true ->
  exists frame_data buffer',
    FrameAlignedBuffer.read_frame (frame_buffer self)
    = Some (frame_data, buffer')
    /\ length frame_data = FrameAlignedBuffer.frame_bytes
    /\ FrameAlignedBuffer.buffer (frame_buffer self)
       = frame_data ++ FrameAlignedBuffer.buffer buffer'
    /\ match vad_iterator self with
       | None =>
           loop_body time_time self results clock
           = BodyRaised (set_frame_buffer self buffer')
       | Some it =>
           match vad_call it frame_data with
           | (Raises, it') =>
               loop_body time_time self results clock
               = BodyRaised
                   (set_vad_iterator (set_frame_buffer self buffer') (Some it'))
           | (Returns v, it') =>
               let fr :=
                 Build_AudioFrame
                   (frame_counter self + 1) frame_data
                   (inject_Z (frame_counter self + 1) * 32)%Q v in
               loop_body time_time self results clock
               = BodyNext
                   (after_frame time_time self buffer' it' fr clock)
                   (results
                    ++ option_list
                         (fst (fst (VADStateMachine.process_frame
                                      time_time (state_machine self) fr clock))))
                   (S (S clock))
           end
       end.
Proof.
  intros Hc.
  destruct (read_frame_complete _ Hc) as (fd & b' & Hread & Hfd & Hne & Hb' & Hlen).
  exists fd, b'. split; [exact Hread|].
  apply has_complete_frame_iff in Hc.
  split; [rewrite Hfd, length_take; lia|].
  split; [rewrite Hfd, Hb'; symmetry; apply take_drop|].
  unfold loop_body. rewrite Hread.
  rewrite (bool_decide_eq_false_2 _ Hne).
  cbn [vad_iterator set_frame_buffer].
  destruct (vad_iterator self) as [it|]; [|reflexivity].
  destruct (vad_call it fd) as [[v|] it']; [|reflexivity].
  cbv zeta. unfold after_frame, VADStateMachine.process_frame.
  cbn [state_machine set_frames_built set_frame_counter set_vad_iterator
       frame_counter frames_built].
  destruct (VADStateMachine._handle_vad_result _ _) as [[r|] sm'];
    cbn [fst snd option_list].
  - destruct (is_speech_segment _); cbn [set_speech_segments_count
      set_single_frames_count set_state_machine speech_segments_count
      single_frames_count]; rewrite ?Z.add_0_r; reflexivity.
  - cbn [set_state_machine]. rewrite ?Z.add_0_r, app_nil_r. reflexivity.
Qed.

Lemma kept_refl (a : t M Model Iter) : kept a a.
Proof. repeat split. Qed.

Lemma kept_loop_body (a self : t M Model Iter) results clock :
  kept a self ->
  match loop_body time_time self results clock with
  | BodyNext self' _ _ | BodyBreak self' | BodyRaised self' => kept a self'
  end.
Proof.
  intros Hk.
  destruct (FrameAlignedBuffer.has_complete_frame (frame_buffer self)) eqn:Hc;
    [|rewrite loop_body_no_frame by exact Hc; exact Hk].
  destruct (loop_body_step self results clock Hc)
    as (fd & b' & Hread & _ & _ & Hbody).
  assert (FrameAlignedBuffer.max_buffer_samples b'
          = FrameAlignedBuffer.max_buffer_samples (frame_buffer self)) as Hcap.
  { unfold FrameAlignedBuffer.read_frame in Hread.
    destruct (FrameAlignedBuffer.has_complete_frame (frame_buffer self));
      [|discriminate].
    injection Hread as _ <-. reflexivity. }
  unfold kept in *. destruct Hk as (? & ? & ? & ? & ? & ? & ? & ? & ? & ?).
  destruct (vad_iterator self) as [it|];
    [destruct (vad_call it fd) as [[v|] it']|];
    rewrite Hbody; cbn; rewrite Hcap; repeat split; assumption.
Qed.

Lemma kept_frame_loop fuel (self : t M Model Iter) results clock :
  match frame_loop time_time fuel self results clock with
  | LoopDone _ self' _ | LoopRaised self' _ => kept self self'
  | LoopFuel => True
  end.
Proof.
  apply (frame_loop_invariant time_time (kept self)); [|apply kept_refl].
  intros s r c. apply kept_loop_body.
Qed.

Lemma process_frame_clock (sm : VADStateMachine.t M) fr clock :
  snd (VADStateMachine.process_frame time_time sm fr clock) = S (S clock).
Proof.
  unfold VADStateMachine.process_frame.
  destruct (VADStateMachine._handle_vad_result sm fr). reflexivity.
Qed.

(** When the loop is left normally, it has built a frame for each complete
    frame of the buffer and fed them, in order, to the state machine. *)
Lemma frame_loop_done fuel (self : t M Model Iter) results clock
  results' self' clock' :
  frame_loop time_time fuel self results clock
  = LoopDone results' self' clock' ->
  exists built,
    let fed :=
      VADStateMachine.feed time_time (state_machine self) built clock in
    frames_built self' = frames_built self ++ built
    /\ results' = results ++ fst (fst fed)
    /\ state_machine self' = snd (fst fed)
    /\ clock' = snd fed
    /\ frame_counter self' = frame_counter self + Z.of_nat (length built)
    /\ FrameAlignedBuffer.buffer (frame_buffer self)
       = concat (audio_data <$> built)
         ++ FrameAlignedBuffer.buffer (frame_buffer self')
    /\ Forall (fun f => length (audio_data f)
                        = FrameAlignedBuffer.frame_bytes) built
    /\ FrameAlignedBuffer.has_complete_frame (frame_buffer self') = false
    /\ speech_segments_count self'
       = speech_segments_count self
         + Z.of_nat (length (List.filter is_speech_segment (fst (fst fed))))
    /\ single_frames_count self'
       = single_frames_count self
         + Z.of_nat (length (List.filter (fun r => negb (is_speech_segment r))
                                         (fst (fst fed)))).
Proof.
  revert self results clock.
  induction fuel as [|fuel IH]; intros self results clock; simpl;
    destruct (FrameAlignedBuffer.has_complete_frame (frame_buffer self))
      eqn:Hc; try discriminate;
    try (intros [= <- <- <-]; exists []; cbn;
         rewrite ?app_nil_r, ?Z.add_0_r; repeat split; auto; constructor).
  destruct (loop_body_step self results clock Hc)
    as (fd & b' & _ & Hlen & Hbuf & Hbody).
  destruct (vad_iterator self) as [it|]; [|rewrite Hbody; discriminate].
  destruct (vad_call it fd) as [[v|] it']; [|rewrite Hbody; discriminate].
  cbv zeta in Hbody. rewrite Hbody. clear Hbody.
  set (fr := Build_AudioFrame (frame_counter self + 1) fd
               (inject_Z (frame_counter self + 1) * 32)%Q v).
  intros Hloop. apply IH in Hloop as (built & H1 & H2 & H3 & H4 & H5 & H6 & H7
                                      & H8 & H9 & H10).
  exists (fr :: built). cbn [VADStateMachine.feed].
  pose proof (process_frame_clock (state_machine self) fr clock) as Hclock.
  unfold after_frame in *.
  cbn [frames_built state_machine frame_counter frame_buffer
       speech_segments_count single_frames_count] in *.
  destruct (VADStateMachine.process_frame time_time (state_machine self) fr clock)
    as [[result sm'] clock1].
  cbn [fst snd] in *. subst clock1.
  destruct (VADStateMachine.feed time_time sm' built (S (S clock)))
    as [[rs sm''] clock2].
  cbn [fst snd] in *.
  split; [rewrite H1, <- app_assoc; reflexivity|].
  split; [rewrite H2, <- app_assoc; destruct result; reflexivity|].
  split; [exact H3|]. split; [exact H4|].
  split; [rewrite H5; cbn [length]; lia|].
  split; [rewrite Hbuf, H6; cbn; rewrite <- app_assoc; reflexivity|].
  split; [constructor; [exact Hlen|exact H7]|].
  split; [exact H8|].
  split.
  - rewrite H9. destruct result as [r|]; cbn [List.filter];
      [destruct (is_speech_segment r); cbn [length]|]; lia.
  - rewrite H10. destruct result as [r|]; cbn [List.filter];
      [destruct (is_speech_segment r); cbn [length negb]|]; lia.
Qed.

(** When the loop is left by an exception of the iterator, the frames it
    answered before were numbered, and the frame it raised on is gone from
    the buffer with them. *)
Lemma frame_loop_raised_at fuel (self : t M Model Iter) results clock it
  self' clock' :
  vad_iterator self = Some it ->
  frame_loop time_time fuel self results clock = LoopRaised self' clock' ->
  let k := answered it (FrameAlignedBuffer.complete_frames (frame_buffer self)) in
  frame_counter self' = frame_counter self + Z.of_nat k
  /\ length (frames_built self') = (length (frames_built self) + k)%nat
  /\ FrameAlignedBuffer.buffer (frame_buffer self')
     = drop (S k * FrameAlignedBuffer.frame_bytes)
            (FrameAlignedBuffer.buffer (frame_buffer self)).
Proof.
  revert self results clock it.
  induction fuel as [|fuel IH]; intros self results clock it Hit;
    cbn [frame_loop]; cbv zeta;
    destruct (FrameAlignedBuffer.has_complete_frame (frame_buffer self))
      eqn:Hc; try discriminate.
  destruct (loop_body_step self results clock Hc)
    as (fd & b' & Hread & Hlen & Hbuf & Hbody).
  rewrite (complete_frames_some _ _ _ Hread). rewrite Hit in Hbody.
  cbn [answered].
  destruct (vad_call it fd) as [[v|] it'].
  - cbv zeta in Hbody. rewrite Hbody. intros Hloop.
    eapply IH in Hloop; [|reflexivity].
    cbn [after_frame frame_buffer frame_counter frames_built] in Hloop.
    destruct Hloop as (H1 & H2 & H3).
    split; [rewrite H1; lia|].
    split; [rewrite H2, length_app; cbn [length]; lia|].
    rewrite H3, Hbuf.
    replace (S (S (answered it' (FrameAlignedBuffer.complete_frames b')))
             * FrameAlignedBuffer.frame_bytes)%nat
      with (length fd
            + S (answered it' (FrameAlignedBuffer.complete_frames b'))
              * FrameAlignedBuffer.frame_bytes)%nat by lia.
    rewrite drop_app_add. reflexivity.
  - rewrite Hbody. intros [= <- <-].
    cbn [set_vad_iterator set_frame_buffer frame_counter frames_built
         frame_buffer].
    split; [lia|]. split; [lia|].
    rewrite Hbuf.
    replace (1 * FrameAlignedBuffer.frame_bytes)%nat with (length fd) by lia.
    rewrite drop_app_length. reflexivity.
Qed.

(** What a call of [process_chunk] that returns has done. *)
Lemma process_chunk_returned (self self' : t M Model Iter) chunk clock
  results clock' :
  process_chunk time_time self chunk clock
  = (Returned results, self', clock') ->
  exists written built,
    FrameAlignedBuffer.write (frame_buffer self) chunk = Some written
    /\ is_Some (vad_iterator self)
    /\ _validate_audio_chunk chunk = None
    /\ (VADStateMachine.feed time_time (state_machine self) built (S clock)
        = (results, state_machine self', (clock' - 2)%nat))
    /\ frames_built self' = frames_built self ++ built
    /\ frame_counter self' = frame_counter self + Z.of_nat (length built)
    /\ FrameAlignedBuffer.buffer written
       = concat (audio_data <$> built)
         ++ FrameAlignedBuffer.buffer (frame_buffer self')
    /\ Forall (fun f => length (audio_data f)
                        = FrameAlignedBuffer.frame_bytes) built
    /\ FrameAlignedBuffer.has_complete_frame (frame_buffer self') = false
    /\ speech_segments_count self'
       = speech_segments_count self
         + Z.of_nat (length (List.filter is_speech_segment results))
    /\ single_frames_count self'
       = single_frames_count self
         + Z.of_nat (length (List.filter (fun r => negb (is_speech_segment r))
                                         results))
    /\ total_chunks_processed self' = total_chunks_processed self + 1
    /\ error_count self' = error_count self
    /\ is_initialized self' = is_initialized self.
Proof.
  unfold process_chunk.
  destruct (vad_iterator self) as [it|] eqn:Hit; [|discriminate].
  destruct (_validate_audio_chunk chunk) eqn:Hvalid; [discriminate|].
  unfold _process_chunk_internal.
  destruct (FrameAlignedBuffer.write (frame_buffer self) chunk)
    as [written|] eqn:Hwrite; [|discriminate].
  pose proof (kept_frame_loop (length (FrameAlignedBuffer.buffer written))
                (set_frame_buffer self written) [] (S clock)) as Hkept.
  destruct (frame_loop _ _ _ _ _) as [rs s c|s c|] eqn:Hloop;
    [|discriminate|discriminate].
  intros [= <- <- <-].
  apply frame_loop_done in Hloop
    as (built & H1 & H2 & H3 & H4 & H5 & H6 & H7 & H8 & H9 & H10).
  destruct Hkept as (_ & _ & Ht & _ & He & _ & _ & _ & Hi & _).
  cbn [frames_built state_machine frame_counter frame_buffer
       speech_segments_count single_frames_count set_frame_buffer
       total_chunks_processed error_count is_initialized] in *.
  cbn [app] in H2.
  exists written, built.
  assert (forall x : t M Model Iter,
             _record_processing_time x
               ((time_time c - time_time clock) * 1000)%Q
             = set_processing_times x
                 (processing_times
                    (_record_processing_time x
                       ((time_time c - time_time clock) * 1000)%Q))) as Hrec.
  { intros x. unfold _record_processing_time. case_bool_decide; reflexivity. }
  rewrite Hrec.
  cbn [frames_built state_machine frame_counter frame_buffer
       speech_segments_count single_frames_count set_processing_times
       set_last_process_time set_total_processing_time_ms
       set_total_chunks_processed total_chunks_processed error_count
       is_initialized].
  split; [reflexivity|]. split; [eexists; reflexivity|].
  split; [reflexivity|].
  split.
  { destruct (VADStateMachine.feed time_time (state_machine self) built (S clock))
      as [[rs' sm'] c']. cbn [fst snd] in *. subst.
    replace (S (S c') - 2)%nat with c' by lia. reflexivity. }
  rewrite <- H2 in H9, H10.
  repeat (split; [assumption|]). split; [lia|]. split; assumption.
Qed.

End LoopFacts.

(** * Further properties of the state machine *)

(** X1.  An accepted speech start in the idle state opens segment number
    [segment_counter + 1] with the frame as its only member and moves to
    [COLLECTING]; the result is the interruption-level result carrying the
    manager's event when the manager returned one, and nothing otherwise:
    the start frame itself is not returned as a frame-level result. *)
Theorem start_opens_segment {M : Type} `{!InterruptionManager M}
  (time_time : nat -> Q) (self : VADStateMachine.t M) (f : AudioFrame)
  (d : gmap string Z) (clock : nat) :
  vad_result f = Some d ->
  is_Some (d !! "start"%string) ->
  VADStateMachine.state self = VADState.IDLE ->
  VADStateMachine.lets_in self f ->
  let event :=
    VADStateMachine.interruption_manager self
    ≫= (fun m => fst (on_speech_start m (timestamp_ms f))) in
  exists result self',
    VADStateMachine.process_frame time_time self f clock
    = (result, self', S (S clock))
    /\ VADStateMachine.state self' = VADState.COLLECTING
    /\ VADStateMachine.current_collector self'
       = Some (SpeechCollector.Build_t
                 (VADStateMachine.segment_counter self + 1) [f])
    /\ VADStateMachine.segment_counter self'
       = VADStateMachine.segment_counter self + 1
    /\ result_type <$> result = (fun _ => "interruption"%string) <$> event
    /\ result ≫= interruption = event
    /\ result ≫= frame = None
    /\ result ≫= segment = None.
Proof.
  intros Hvad Hstart Hidle Hin.
  unfold VADStateMachine.process_frame, VADStateMachine._handle_vad_result.
  rewrite Hvad, (bool_decide_eq_true_2 _ Hstart).
  unfold VADStateMachine._handle_speech_start, VADStateMachine.lets_in in *.
  rewrite Hidle.
  destruct (VADStateMachine.interruption_manager self) as [m|]; cbn [mbind option_bind].
  - destruct (on_speech_start m (timestamp_ms f)) as [ev m'].
    cbn [fst snd] in *.
    rewrite bool_decide_eq_false_2 by (intros Hne; contradiction).
    rewrite bool_decide_eq_false_2 by discriminate.
    destruct ev; eexists _, _; (split; [reflexivity|]); repeat split.
  - rewrite bool_decide_eq_false_2 by discriminate.
    eexists _, _. split; [reflexivity|]. repeat split.
Qed.

(** The system is responding: the start is an interruption. *)
Lemma start_opens_segment_witness :
  let self := idle_machine SystemState.RESPONDING in
  let f := test_frame 7 (start_verdict 3584) in
  exists result self',
    @VADStateMachine.process_frame _ SpecManager.manager ticking self f 0
    = (result, self', 2%nat)
    /\ VADStateMachine.state self' = VADState.COLLECTING
    /\ VADStateMachine.current_collector self'
       = Some (SpeechCollector.Build_t 1 [f])
    /\ VADStateMachine.segment_counter self' = 1
    /\ result_type <$> result = Some "interruption"%string
    /\ result ≫= interruption
       = Some (Build_InterruptionEvent (timestamp_ms f)
                                       SystemState.RESPONDING)
    /\ result ≫= frame = None
    /\ result ≫= segment = None.
Proof.
  intros self f.
  apply (@start_opens_segment _ SpecManager.manager ticking self f
           {[ "start"%string := 3584 ]} 0%nat).
  - reflexivity.
  - vm_compute. eexists. reflexivity.
  - reflexivity.
  - reflexivity.
Defined.

(** X2.  A speech start that arrives while a segment is being collected is
    ignored by the state machine (no result, same state, same collector,
    same counter), but the manager's [on_speech_start] has been called all
    the same. *)
Theorem duplicate_start_ignored {M : Type} `{!InterruptionManager M}
  (time_time : nat -> Q) (self : VADStateMachine.t M) (f : AudioFrame)
  (d : gmap string Z) (clock : nat) :
  vad_result f = Some d ->
  is_Some (d !! "start"%string) ->
  VADStateMachine.state self = VADState.COLLECTING ->
  exists self',
    VADStateMachine.process_frame time_time self f clock
    = (None, self', S (S clock))
    /\ VADStateMachine.state self' = VADState.COLLECTING
    /\ VADStateMachine.current_collector self'
       = VADStateMachine.current_collector self
    /\ VADStateMachine.segment_counter self'
       = VADStateMachine.segment_counter self
    /\ VADStateMachine.interruption_manager self'
       = (fun m => snd (on_speech_start m (timestamp_ms f)))
           <$> VADStateMachine.interruption_manager self.
Proof.
  intros Hvad Hstart Hcol.
  unfold VADStateMachine.process_frame, VADStateMachine._handle_vad_result.
  rewrite Hvad, (bool_decide_eq_true_2 _ Hstart).
  unfold VADStateMachine._handle_speech_start. rewrite Hcol.
  destruct (VADStateMachine.interruption_manager self) as [m|]; cbn [fmap option_fmap option_map].
  - destruct (on_speech_start m (timestamp_ms f)) as [ev m'].
    case_bool_decide; [|rewrite bool_decide_eq_true_2 by reflexivity];
      eexists; (split; [reflexivity|]); cbn; rewrite ?Hcol; repeat split.
  - rewrite bool_decide_eq_true_2 by reflexivity.
    eexists. split; [reflexivity|]. cbn. rewrite ?Hcol. repeat split.
Qed.

Lemma duplicate_start_ignored_witness :
  let m := SpecManager.mk SystemState.COLLECTING
             (Build_InterruptionConfig true 500) None in
  let open := SpeechCollector.Build_t 1 [test_frame 1 (start_verdict 512)] in
  let self := VADStateMachine.mk "stream_processor"%string VADState.COLLECTING
                (Some open) 1 (Some m) in
  let f := test_frame 2 (start_verdict 1024) in
  exists self',
    @VADStateMachine.process_frame _ SpecManager.manager ticking self f 0
    = (None, self', 2%nat)
    /\ VADStateMachine.state self' = VADState.COLLECTING
    /\ VADStateMachine.current_collector self' = Some open
    /\ VADStateMachine.segment_counter self' = 1
    /\ VADStateMachine.interruption_manager self'
       = Some (snd (SpecManager.on_speech_start m (timestamp_ms f))).
Proof.
  intros m open self f.
  apply (@duplicate_start_ignored _ SpecManager.manager ticking self f
           {[ "start"%string := 1024 ]} 0%nat).
  - reflexivity.
  - vm_compute. eexists. reflexivity.
  - reflexivity.
Defined.

(** X3.  A frame without verdict never reaches the manager and never
    changes the local state or the segment counter.  When idle, the frame
    comes back as a frame-level result and the state machine is as before;
    when collecting, it is appended to the open collector and nothing is
    returned. *)
Theorem no_verdict_frame {M : Type} `{!InterruptionManager M}
  (time_time : nat -> Q) (self : VADStateMachine.t M) (f : AudioFrame)
  (clock : nat) :
  vad_result f = None ->
  exists result self',
    VADStateMachine.process_frame time_time self f clock
    = (result, self', S (S clock))
    /\ VADStateMachine.interruption_manager self'
       = VADStateMachine.interruption_manager self
    /\ VADStateMachine.state self' = VADStateMachine.state self
    /\ VADStateMachine.segment_counter self'
       = VADStateMachine.segment_counter self
    /\ (VADStateMachine.state self = VADState.IDLE ->
        self' = self
        /\ result
           = Some (Build_CascadeResult "frame" (Some f) None None
                     ((time_time (S clock) - time_time clock) * 1000)%Q
                     (VADStateMachine.instance_id self)))
    /\ (forall collector,
           VADStateMachine.state self = VADState.COLLECTING ->
           VADStateMachine.current_collector self = Some collector ->
           result = None
           /\ VADStateMachine.current_collector self'
              = Some (SpeechCollector.add_frame collector f)).
Proof.
  intros Hvad.
  unfold VADStateMachine.process_frame, VADStateMachine._handle_vad_result.
  rewrite Hvad. unfold VADStateMachine._handle_no_speech.
  destruct (VADStateMachine.state self) eqn:Hs,
           (VADStateMachine.current_collector self) as [c|] eqn:Hcol;
    eexists _, _; (split; [reflexivity|]); cbn;
    repeat split; try congruence; try discriminate.
Qed.

Lemma no_verdict_frame_witness :
  let self := idle_machine SystemState.IDLE in
  let f := test_frame 1 None in
  exists result self',
    @VADStateMachine.process_frame _ SpecManager.manager ticking self f 0
    = (result, self', 2%nat)
    /\ VADStateMachine.interruption_manager self'
       = VADStateMachine.interruption_manager self
    /\ VADStateMachine.state self' = VADState.IDLE
    /\ VADStateMachine.segment_counter self' = 0
    /\ (VADState.IDLE = VADState.IDLE ->
        self' = self
        /\ result
           = Some (Build_CascadeResult "frame" (Some f) None None
                     ((ticking 1 - ticking 0) * 1000)%Q "stream_processor"))
    /\ (forall collector,
           VADState.IDLE = VADState.COLLECTING ->
           None = Some collector ->
           result = None
           /\ VADStateMachine.current_collector self'
              = Some (SpeechCollector.add_frame collector f)).
Proof.
  intros self f.
  apply (@no_verdict_frame _ SpecManager.manager ticking self f 0%nat).
  reflexivity.
Defined.

(** X4.  Segment round trip.  From the idle state, an accepted start frame,
    then any number of frames without verdict, then an end frame: the
    results carry exactly one segment; its id is [segment_counter + 1], its
    members are all these frames in order, it starts at the timestamp of
    the start frame, ends at that of the end frame, and lasts the
    difference.  The state machine is idle again, with no open collector. *)
Theorem segment_round_trip {M : Type} `{!InterruptionManager M}
  (time_time : nat -> Q) (self : VADStateMachine.t M)
  (first last : AudioFrame) (mids : list AudioFrame)
  (ds de : gmap string Z) (clock : nat) :
  VADStateMachine.state self = VADState.IDLE ->
  vad_result first = Some ds -> is_Some (ds !! "start"%string) ->
  VADStateMachine.lets_in self first ->
  Forall (fun f => vad_result f = None) mids ->
  vad_result last = Some de ->
  de !! "start"%string = None -> is_Some (de !! "end"%string) ->
  exists results self' clock',
    VADStateMachine.feed time_time self (first :: mids ++ [last]) clock
    = (results, self', clock')
    /\ omap segment results
       = [Build_SpeechSegment
            (VADStateMachine.segment_counter self + 1)
            (first :: mids ++ [last])
            (timestamp_ms first) (timestamp_ms last)
            (timestamp_ms last - timestamp_ms first)%Q]
    /\ omap frame results = []
    /\ VADStateMachine.state self' = VADState.IDLE
    /\ VADStateMachine.current_collector self' = None
    /\ VADStateMachine.segment_counter self'
       = VADStateMachine.segment_counter self + 1.
Proof.
  intros Hidle Hvs Hstart Hin Hmids Hve Hnostart Hend.
  assert (forall id counter manager collector c,
             VADStateMachine.process_frame time_time
               (VADStateMachine.mk id VADState.COLLECTING (Some collector)
                                   counter manager) last c
             = (Some (stamp
                        (Build_CascadeResult "segment" None
                           (Some (SpeechCollector.end_collection collector last))
                           None 0%Q id)
                        ((time_time (S c) - time_time c) * 1000)%Q id),
                VADStateMachine.mk id VADState.IDLE None counter
                  ((fun m => on_speech_end m (timestamp_ms last)) <$> manager),
                S (S c))) as Hlast.
  { intros id counter manager collector c.
    unfold VADStateMachine.process_frame, VADStateMachine._handle_vad_result.
    rewrite Hve.
    rewrite bool_decide_eq_false_2
      by (rewrite Hnostart; intros [x Hx]; discriminate).
    rewrite (bool_decide_eq_true_2 _ Hend).
    unfold VADStateMachine._handle_speech_end. cbn.
    destruct manager; reflexivity. }
  cbn [VADStateMachine.feed].
  unfold VADStateMachine.process_frame at 1.
  unfold VADStateMachine._handle_vad_result.
  rewrite Hvs, (bool_decide_eq_true_2 _ Hstart).
  unfold VADStateMachine._handle_speech_start, VADStateMachine.lets_in in *.
  rewrite Hidle.
  assert (forall id counter manager collector c,
             VADStateMachine.feed time_time
               (VADStateMachine.mk id VADState.COLLECTING (Some collector)
                                   counter manager) (mids ++ [last]) c
             = ([stamp
                   (Build_CascadeResult "segment" None
                      (Some (Build_SpeechSegment
                               (SpeechCollector.segment_id collector)
                               (SpeechCollector.frames collector
                                ++ mids ++ [last])
                               (timestamp_ms
                                  (default last
                                     (head (SpeechCollector.frames collector
                                            ++ mids ++ [last]))))
                               (timestamp_ms last)
                               (timestamp_ms last
                                - timestamp_ms
                                    (default last
                                       (head (SpeechCollector.frames collector
                                              ++ mids ++ [last]))))%Q))
                      None 0%Q id)
                   ((time_time (S (c + 2 * length mids))
                     - time_time (c + 2 * length mids)%nat) * 1000)%Q id],
                VADStateMachine.mk id VADState.IDLE None counter
                  ((fun m => on_speech_end m (timestamp_ms last)) <$> manager),
                S (S (c + 2 * length mids)))) as Hrest.
  { intros id counter manager collector c.
    revert collector c.
    induction Hmids as [|f mids' Hf Hmids' IH]; intros collector c.
    - cbn [app VADStateMachine.feed length]. rewrite Hlast.
      rewrite Nat.mul_0_r, Nat.add_0_r.
      unfold SpeechCollector.end_collection. reflexivity.
    - cbn [app VADStateMachine.feed].
      unfold VADStateMachine.process_frame at 1.
      unfold VADStateMachine._handle_vad_result. rewrite Hf.
      cbn [VADStateMachine._handle_no_speech VADStateMachine.state
           VADStateMachine.current_collector VADStateMachine.instance_id
           VADStateMachine.segment_counter
           VADStateMachine.interruption_manager].
      rewrite IH.
      cbn [SpeechCollector.add_frame SpeechCollector.segment_id
           SpeechCollector.frames length].
      rewrite <- !app_assoc. cbn [app].
      replace (S (S c) + 2 * length mids')%nat
        with (c + 2 * S (length mids'))%nat by lia.
      reflexivity. }
  destruct (VADStateMachine.interruption_manager self) as [m|].
  - destruct (on_speech_start m (timestamp_ms first)) as [ev m'].
    cbn [fst snd] in *.
    rewrite bool_decide_eq_false_2 by (intros Hne; contradiction).
    rewrite bool_decide_eq_false_2 by discriminate.
    destruct ev; rewrite Hrest; eexists _, _, _;
      (split; [reflexivity|]); repeat split.
  - rewrite bool_decide_eq_false_2 by discriminate.
    rewrite Hrest. eexists _, _, _. split; [reflexivity|]. repeat split.
Qed.

(** Verdicts start, none, none, end on frames 5 to 8. *)
Lemma segment_round_trip_witness :
  let self := idle_machine SystemState.IDLE in
  let f5 := test_frame 5 (start_verdict 2560) in
  let f6 := test_frame 6 None in
  let f7 := test_frame 7 None in
  let f8 := test_frame 8 (end_verdict 4096) in
  exists results self' clock',
    @VADStateMachine.feed _ SpecManager.manager ticking self
      (f5 :: [f6; f7] ++ [f8]) 0
    = (results, self', clock')
    /\ omap segment results
       = [Build_SpeechSegment 1 (f5 :: [f6; f7] ++ [f8])
            (timestamp_ms f5) (timestamp_ms f8)
            (timestamp_ms f8 - timestamp_ms f5)%Q]
    /\ omap frame results = []
    /\ VADStateMachine.state self' = VADState.IDLE
    /\ VADStateMachine.current_collector self' = None
    /\ VADStateMachine.segment_counter self' = 1.
Proof.
  intros self f5 f6 f7 f8.
  apply (@segment_round_trip _ SpecManager.manager ticking self f5 f8 [f6; f7]
           {[ "start"%string := 2560 ]} {[ "end"%string := 4096 ]} 0%nat).
  - reflexivity.
  - reflexivity.
  - vm_compute. eexists. reflexivity.
  - reflexivity.
  - repeat constructor.
  - reflexivity.
  - vm_compute. reflexivity.
  - vm_compute. eexists. reflexivity.
Defined.

(** X5.  The segment counter counts the segments opened: a frame moves it
    by one exactly when it takes the state machine from [IDLE] to
    [COLLECTING], and the collector then opened carries the new count as
    its segment id; any other frame leaves the counter as it is. *)
Theorem segment_counter_counts_openings {M : Type} `{!InterruptionManager M}
  (time_time : nat -> Q) (self : VADStateMachine.t M) (f : AudioFrame)
  (clock : nat) :
  let self' :=
    snd (fst (VADStateMachine.process_frame time_time self f clock)) in
  (VADStateMachine.state self = VADState.IDLE
   /\ VADStateMachine.state self' = VADState.COLLECTING ->
   VADStateMachine.segment_counter self'
   = VADStateMachine.segment_counter self + 1
   /\ SpeechCollector.segment_id <$> VADStateMachine.current_collector self'
      = Some (VADStateMachine.segment_counter self'))
  /\ (~ (VADStateMachine.state self = VADState.IDLE
         /\ VADStateMachine.state self' = VADState.COLLECTING) ->
      VADStateMachine.segment_counter self'
      = VADStateMachine.segment_counter self)
  /\ VADStateMachine.instance_id self' = VADStateMachine.instance_id self.
Proof.
  unfold VADStateMachine.process_frame, VADStateMachine._handle_vad_result,
    VADStateMachine._handle_no_speech, VADStateMachine._handle_speech_start,
    VADStateMachine._handle_speech_end.
  destruct (vad_result f) as [d|]; repeat case_bool_decide;
    destruct (VADStateMachine.interruption_manager self) as [m|];
    try destruct (on_speech_start m (timestamp_ms f)) as [[ev|] m'];
    destruct (VADStateMachine.state self) eqn:Hs,
             (VADStateMachine.current_collector self) as [c|];
    cbn; repeat case_bool_decide; cbn; rewrite ?Hs;
    (split; [|split]); intros; try reflexivity;
    try (match goal with
         | H : _ /\ _ |- _ => destruct H; discriminate
         end);
    try (match goal with
         | H : ~ _ |- _ => exfalso; apply H; split; reflexivity
         end);
    split; reflexivity.
Qed.

(** * Further properties of the processor *)

Lemma write_appends (b written : FrameAlignedBuffer.t) (data : list byte) :
  FrameAlignedBuffer.write b data = Some written ->
  FrameAlignedBuffer.buffer written = FrameAlignedBuffer.buffer b ++ data
  /\ FrameAlignedBuffer.max_buffer_samples written
     = FrameAlignedBuffer.max_buffer_samples b
  /\ Z.of_nat (length (FrameAlignedBuffer.buffer b) + length data)
     <= FrameAlignedBuffer.max_buffer_samples b * 2.
Proof.
  unfold FrameAlignedBuffer.write. case_bool_decide; [discriminate|].
  intros [= <-]. cbn. repeat split. lia.
Qed.

(** X6.  No byte is lost or invented by a call that returns: the bytes
    buffered before the call followed by the chunk are the bytes of the
    frames built during the call, in order, followed by the bytes left in
    the buffer.  Each frame built holds 1024 bytes, and fewer than 1024
    bytes are left: the trailing partial frame waits for the next chunk. *)
Theorem process_chunk_conserves_bytes {M Model Iter : Type}
  `{!InterruptionManager M} `{!SileroVad Model Iter} (time_time : nat -> Q)
  (self self' : StreamProcessor.t M Model Iter) (chunk : list byte)
  (clock clock' : nat) (results : list CascadeResult) :
  StreamProcessor.process_chunk time_time self chunk clock
  = (Returned results, self', clock') ->
  exists built,
    StreamProcessor.frames_built self'
    = StreamProcessor.frames_built self ++ built
    /\ FrameAlignedBuffer.buffer (StreamProcessor.frame_buffer self) ++ chunk
       = concat (audio_data <$> built)
         ++ FrameAlignedBuffer.buffer (StreamProcessor.frame_buffer self')
    /\ Forall (fun f => length (audio_data f) = 1024%nat) built
    /\ (length (FrameAlignedBuffer.buffer (StreamProcessor.frame_buffer self'))
        < 1024)%nat
    /\ StreamProcessor.frame_counter self'
       = StreamProcessor.frame_counter self + Z.of_nat (length built).
Proof.
  intros Hrun.
  apply process_chunk_returned in Hrun
    as (written & built & Hwrite & _ & _ & _ & Hbuilt & Hcount & Hbytes
        & Hsizes & Hdrained & _).
  apply write_appends in Hwrite as (Hwritten & _).
  exists built. split; [exact Hbuilt|].
  split; [rewrite <- Hwritten; exact Hbytes|].
  split; [exact Hsizes|]. split; [|exact Hcount].
  unfold FrameAlignedBuffer.has_complete_frame in Hdrained.
  apply bool_decide_eq_false in Hdrained.
  change FrameAlignedBuffer.frame_bytes with 1024%nat in Hdrained. lia.
Qed.

(** Ten bytes are buffered and a chunk of 1020 bytes arrives: one frame is
    built and six bytes stay behind. *)
Lemma process_chunk_conserves_bytes_witness :
  let self :=
    StreamProcessor.set_frame_buffer
      (scripted_processor []) (FrameAlignedBuffer.mk (silence 10) 128000) in
  let run :=
    @StreamProcessor.process_chunk _ _ _ SpecManager.manager ScriptedVad.oracle
      ticking self (silence 1020) 0 in
  let self' := snd (fst run) in
  exists built,
    StreamProcessor.frames_built self'
    = StreamProcessor.frames_built self ++ built
    /\ FrameAlignedBuffer.buffer (StreamProcessor.frame_buffer self)
       ++ silence 1020
       = concat (audio_data <$> built)
         ++ FrameAlignedBuffer.buffer (StreamProcessor.frame_buffer self')
    /\ Forall (fun f => length (audio_data f) = 1024%nat) built
    /\ (length (FrameAlignedBuffer.buffer (StreamProcessor.frame_buffer self'))
        < 1024)%nat
    /\ StreamProcessor.frame_counter self'
       = StreamProcessor.frame_counter self + Z.of_nat (length built).
Proof.
  intros self run self'.
  apply (@process_chunk_conserves_bytes _ _ _ SpecManager.manager
           ScriptedVad.oracle ticking self self' (silence 1020) 0%nat
           (snd run)
           (match fst (fst run) with Returned r => r | _ => [] end)).
  vm_compute. reflexivity.
Defined.

(** X7.  The results a call returns are the results of the state machine
    on the frames built during the call, fed in order, and the state
    machine after the call is the one these frames leave. *)
Theorem process_chunk_feeds_state_machine {M Model Iter : Type}
  `{!InterruptionManager M} `{!SileroVad Model Iter} (time_time : nat -> Q)
  (self self' : StreamProcessor.t M Model Iter) (chunk : list byte)
  (clock clock' : nat) (results : list CascadeResult) :
  StreamProcessor.process_chunk time_time self chunk clock
  = (Returned results, self', clock') ->
  exists built,
    StreamProcessor.frames_built self'
    = StreamProcessor.frames_built self ++ built
    /\ fst (VADStateMachine.feed
              time_time (StreamProcessor.state_machine self) built (S clock))
       = (results, StreamProcessor.state_machine self')
    /\ (length results <= length built)%nat.
Proof.
  intros Hrun.
  apply process_chunk_returned in Hrun
    as (written & built & _ & _ & _ & Hfed & Hbuilt & _).
  exists built. split; [exact Hbuilt|]. rewrite Hfed. split; [reflexivity|].
  apply (f_equal (fun x => fst (fst x))) in Hfed. cbn [fst] in Hfed.
  rewrite <- Hfed. clear.
  generalize (StreamProcessor.state_machine self) (S clock).
  induction built as [|f built IH]; intros sm c; cbn [VADStateMachine.feed].
  - reflexivity.
  - destruct (VADStateMachine.process_frame time_time sm f c)
      as [[result sm'] c'].
    specialize (IH sm' c').
    destruct (VADStateMachine.feed time_time sm' built c') as [[rs sm''] c''].
    cbn [fst length] in *. destruct result; cbn [length]; lia.
Qed.

Lemma process_chunk_feeds_state_machine_witness :
  let self := scripted_processor [Returns (start_verdict 0)] in
  let run :=
    @StreamProcessor.process_chunk _ _ _ SpecManager.manager ScriptedVad.oracle
      ticking self (silence 2048) 0 in
  let self' := snd (fst run) in
  let results := match fst (fst run) with Returned r => r | _ => [] end in
  exists built,
    StreamProcessor.frames_built self'
    = StreamProcessor.frames_built self ++ built
    /\ fst (@VADStateMachine.feed _ SpecManager.manager
              ticking (StreamProcessor.state_machine self) built 1)
       = (results, StreamProcessor.state_machine self')
    /\ (length results <= length built)%nat.
Proof.
  intros self run self' results.
  apply (@process_chunk_feeds_state_machine _ _ _ SpecManager.manager
           ScriptedVad.oracle ticking self self' (silence 2048) 0%nat
           (snd run) results).
  vm_compute. reflexivity.
Defined.

(** X8.  A call that returns counts each result once: the segment count
    grows by the number of segment-level results returned and the frame
    count by the number of all other results, the interruption-level ones
    included. *)
Theorem process_chunk_counts_results {M Model Iter : Type}
  `{!InterruptionManager M} `{!SileroVad Model Iter} (time_time : nat -> Q)
  (self self' : StreamProcessor.t M Model Iter) (chunk : list byte)
  (clock clock' : nat) (results : list CascadeResult) :
  StreamProcessor.process_chunk time_time self chunk clock
  = (Returned results, self', clock') ->
  StreamProcessor.speech_segments_count self'
  = StreamProcessor.speech_segments_count self
    + Z.of_nat (length (List.filter is_speech_segment results))
  /\ StreamProcessor.single_frames_count self'
     = StreamProcessor.single_frames_count self
       + Z.of_nat (length (List.filter
                             (fun r => negb (is_speech_segment r)) results))
  /\ StreamProcessor.speech_segments_count self'
     + StreamProcessor.single_frames_count self'
     = StreamProcessor.speech_segments_count self
       + StreamProcessor.single_frames_count self
       + Z.of_nat (length results).
Proof.
  intros Hrun.
  apply process_chunk_returned in Hrun
    as (written & built & _ & _ & _ & _ & _ & _ & _ & _ & _ & Hseg & Hsingle
        & _).
  split; [exact Hseg|]. split; [exact Hsingle|].
  rewrite Hseg, Hsingle.
  assert (length (List.filter is_speech_segment results)
          + length (List.filter (fun r => negb (is_speech_segment r)) results)
          = length results)%nat as Hsplit.
  { clear. induction results as [|r rs IH]; [reflexivity|].
    cbn [List.filter]. destruct (is_speech_segment r); cbn [negb length]; lia. }
  lia.
Qed.

(** The system is responding when speech starts on the first frame and
    ends on the second: an interruption-level result, counted as a frame,
    and a segment-level result. *)
Lemma process_chunk_counts_results_witness :
  let self :=
    @StreamProcessor.set_system_state _ _ _ SpecManager.manager
      (scripted_processor [Returns (start_verdict 0); Returns (end_verdict 512)])
      SystemState.RESPONDING in
  let run :=
    @StreamProcessor.process_chunk _ _ _ SpecManager.manager ScriptedVad.oracle
      ticking self (silence 2048) 0 in
  let self' := snd (fst run) in
  let results := match fst (fst run) with Returned r => r | _ => [] end in
  result_type <$> results = ["interruption"; "segment"]%string
  /\ StreamProcessor.speech_segments_count self'
     = StreamProcessor.speech_segments_count self
       + Z.of_nat (length (List.filter is_speech_segment results))
  /\ StreamProcessor.single_frames_count self'
     = StreamProcessor.single_frames_count self
       + Z.of_nat (length (List.filter
                             (fun r => negb (is_speech_segment r)) results))
  /\ StreamProcessor.speech_segments_count self'
     + StreamProcessor.single_frames_count self'
     = StreamProcessor.speech_segments_count self
       + StreamProcessor.single_frames_count self
       + Z.of_nat (length results).
Proof.
  intros self run self' results. split; [vm_compute; reflexivity|].
  apply (@process_chunk_counts_results _ _ _ SpecManager.manager
           ScriptedVad.oracle ticking self self' (silence 2048) 0%nat
           (snd run) results).
  vm_compute. reflexivity.
Defined.

(** X9.  Every call of [process_chunk] returns or raises, and is counted
    at most once: a call that returns adds one to the chunks processed and
    leaves the error count; a call that raises a processing error adds one
    to the error count and leaves the chunks processed; a call that raises
    anything else (state error, input error) leaves the whole processor as
    it was. *)
Theorem process_chunk_accounting {M Model Iter : Type}
  `{!InterruptionManager M} `{!SileroVad Model Iter} (time_time : nat -> Q)
  (self : StreamProcessor.t M Model Iter) (chunk : list byte) (clock : nat) :
  match StreamProcessor.process_chunk time_time self chunk clock with
  | (Returned _, self', _) =>
      StreamProcessor.total_chunks_processed self'
      = StreamProcessor.total_chunks_processed self + 1
      /\ StreamProcessor.error_count self' = StreamProcessor.error_count self
  | (Raised e, self', _) =>
      StreamProcessor.total_chunks_processed self'
      = StreamProcessor.total_chunks_processed self
      /\ (ProcessingError e ->
          StreamProcessor.error_count self'
          = StreamProcessor.error_count self + 1)
      /\ (~ ProcessingError e -> self' = self)
  | (Diverged, _, _) => False
  end.
Proof.
  destruct (StreamProcessor.process_chunk time_time self chunk clock)
    as [[[results|e|] self'] clock'] eqn:Hrun.
  - apply process_chunk_returned in Hrun
      as (written & built & _ & _ & _ & _ & _ & _ & _ & _ & _ & _ & _ & Ht
          & He & _).
    split; assumption.
  - unfold StreamProcessor.process_chunk in Hrun.
    destruct (StreamProcessor.vad_iterator self);
      [|injection Hrun as <- <- <-; repeat split; intros [=]].
    destruct (_validate_audio_chunk chunk) as [e0|] eqn:Hvalid.
    { injection Hrun as <- <- <-. split; [reflexivity|].
      unfold _validate_audio_chunk in Hvalid.
      repeat case_bool_decide; try discriminate;
        injection Hvalid as <-; split; [intros [=]|reflexivity|intros [=]
                                        |reflexivity]. }
    unfold StreamProcessor._process_chunk_internal in Hrun.
    destruct (FrameAlignedBuffer.write _ _) as [written|].
    2:{ injection Hrun as <- <- <-. cbn. repeat split.
        intros Hne. exfalso. apply Hne. reflexivity. }
    pose proof (kept_frame_loop time_time
                  (length (FrameAlignedBuffer.buffer written))
                  (StreamProcessor.set_frame_buffer self written) []
                  (S clock)) as Hkept.
    destruct (StreamProcessor.frame_loop _ _ _ _ _) as [rs s c|s c|];
      [discriminate| |discriminate].
    injection Hrun as <- <- <-.
    destruct Hkept as (_ & _ & Ht & _ & He & _). cbn in *.
    split; [exact Ht|]. split; [intros _; rewrite He; reflexivity|].
    intros Hne. exfalso. apply Hne. reflexivity.
  - pose proof (process_chunk_terminates time_time self chunk clock) as Hterm.
    rewrite Hrun in Hterm. apply Hterm. reflexivity.
Qed.

(** X10.  When the iterator raises on a frame, the frames it answered
    before in the same call keep their numbers, and the frame it raised on
    is taken out of the buffer without being numbered: its audio is lost,
    and the frames behind it stay buffered for the next call. *)
Theorem oracle_failure_drops_frame {M Model Iter : Type}
  `{!InterruptionManager M} `{!SileroVad Model Iter} (time_time : nat -> Q)
  (self : StreamProcessor.t M Model Iter) (chunk : list byte)
  (clock : nat) (it : Iter) (written : FrameAlignedBuffer.t) :
  StreamProcessor.vad_iterator self = Some it ->
  _validate_audio_chunk chunk = None ->
  FrameAlignedBuffer.write (StreamProcessor.frame_buffer self) chunk
  = Some written ->
  StreamProcessor.oracle_raises
    it (FrameAlignedBuffer.complete_frames written) = true ->
  let answered :=
    StreamProcessor.answered it (FrameAlignedBuffer.complete_frames written) in
  let self' :=
    snd (fst (StreamProcessor.process_chunk time_time self chunk clock)) in
  StreamProcessor.frame_counter self'
  = StreamProcessor.frame_counter self + Z.of_nat answered
  /\ length (StreamProcessor.frames_built self')
     = (length (StreamProcessor.frames_built self) + answered)%nat
  /\ FrameAlignedBuffer.buffer (StreamProcessor.frame_buffer self')
     = drop ((answered + 1) * 1024)
            (FrameAlignedBuffer.buffer (StreamProcessor.frame_buffer self)
             ++ chunk).
Proof.
  intros Hit Hvalid Hwrite Hraises.
  unfold StreamProcessor.process_chunk. rewrite Hit, Hvalid.
  unfold StreamProcessor._process_chunk_internal. rewrite Hwrite.
  destruct (frame_loop_raises time_time
              (length (FrameAlignedBuffer.buffer written))
              (StreamProcessor.set_frame_buffer self written) [] (S clock) it
              Hit Hraises (Nat.le_refl _)) as (s & c & Hloop & _).
  rewrite Hloop.
  apply (frame_loop_raised_at time_time _ _ _ _ it) in Hloop; [|exact Hit].
  apply write_appends in Hwrite as (Hwritten & _).
  cbv zeta in *.
  cbn [StreamProcessor.frame_buffer StreamProcessor.set_frame_buffer
       StreamProcessor.frame_counter StreamProcessor.frames_built
       StreamProcessor.set_error_count fst snd] in *.
  destruct Hloop as (H1 & H2 & H3).
  split; [exact H1|]. split; [exact H2|].
  rewrite H3, Hwritten.
  change FrameAlignedBuffer.frame_bytes with 1024%nat.
  f_equal. lia.
Qed.

(** Three frames arrive; the iterator answers the first and raises on the
    second: frame 1 is numbered, the second frame is gone, the third waits
    in the buffer. *)
Lemma oracle_failure_drops_frame_witness :
  let self := scripted_processor [Returns None; Raises] in
  let self' :=
    snd (fst (@StreamProcessor.process_chunk _ _ _ SpecManager.manager
                ScriptedVad.oracle ticking self (silence 3072) 0)) in
  StreamProcessor.frame_counter self' = 0 + Z.of_nat 1
  /\ length (StreamProcessor.frames_built self') = (0 + 1)%nat
  /\ FrameAlignedBuffer.buffer (StreamProcessor.frame_buffer self')
     = drop ((1 + 1) * 1024) ([] ++ silence 3072).
Proof.
  intros self self'.
  apply (@oracle_failure_drops_frame _ _ _ SpecManager.manager
           ScriptedVad.oracle ticking self (silence 3072) 0%nat
           [Returns None; Raises]
           (FrameAlignedBuffer.mk (silence 3072) 128000)).
  - reflexivity.
  - vm_compute. reflexivity.
  - vm_compute. reflexivity.
  - vm_compute. reflexivity.
Defined.

(** ** What every call keeps *)

Section SessionFacts.
Context {M Model Iter : Type} `{!InterruptionManager M} `{!SileroVad Model Iter}.
Variable time_time : nat -> Q.

Import StreamProcessor.

Local Arguments FrameAlignedBuffer.frame_bytes : simpl never.

Lemma manager_kept_process_frame (sm : VADStateMachine.t M) fr clock :
  is_Some (VADStateMachine.interruption_manager sm) ->
  is_Some (VADStateMachine.interruption_manager
             (snd (fst (VADStateMachine.process_frame time_time sm fr clock)))).
Proof.
  intros [m Hm].
  unfold VADStateMachine.process_frame, VADStateMachine._handle_vad_result,
    VADStateMachine._handle_no_speech, VADStateMachine._handle_speech_start,
    VADStateMachine._handle_speech_end.
  rewrite Hm.
  destruct (vad_result fr) as [d|]; repeat case_bool_decide;
    try destruct (on_speech_start m (timestamp_ms fr)) as [[ev|] m'];
    destruct (VADStateMachine.state sm),
             (VADStateMachine.current_collector sm) as [c|];
    cbn; repeat case_bool_decide; cbn; try rewrite Hm; eauto.
Qed.

Lemma well_formed_loop_body (self : t M Model Iter) results clock :
  well_formed self ->
  match loop_body time_time self results clock with
  | BodyNext self' _ _ | BodyBreak self' | BodyRaised self' => well_formed self'
  end.
Proof.
  intros Hwf.
  destruct (FrameAlignedBuffer.has_complete_frame (frame_buffer self)) eqn:Hc;
    [|rewrite loop_body_no_frame by exact Hc; exact Hwf].
  destruct (loop_body_step time_time self results clock Hc)
    as (fd & b' & Hread & Hlen & Hbuf & Hbody).
  assert (FrameAlignedBuffer.max_buffer_samples b'
          = FrameAlignedBuffer.max_buffer_samples (frame_buffer self)) as Hcap.
  { unfold FrameAlignedBuffer.read_frame in Hread. rewrite Hc in Hread.
    injection Hread as _ <-. reflexivity. }
  assert (length (FrameAlignedBuffer.buffer b')
          <= length (FrameAlignedBuffer.buffer (frame_buffer self)))%nat as Hshort.
  { rewrite Hbuf, length_app. lia. }
  destruct Hwf as (Hinit & Hmodel & Hcoh & Hst & Hmgr & Hmax & Hwin & Hcapa
                   & Hfill & Ht & He & Hs & Hf).
  destruct (vad_iterator self) as [it|] eqn:Hit.
  - destruct (vad_call it fd) as [[v|] it'].
    + cbv zeta in Hbody. rewrite Hbody. unfold well_formed, after_frame. cbn.
      split; [rewrite Hinit; split; eauto|].
      split; [rewrite Hmodel; split; eauto|].
      split; [apply coherent_process_frame; exact Hcoh|].
      split; [apply started_process_frame; exact Hst|].
      split; [apply manager_kept_process_frame; exact Hmgr|].
      repeat (split; [first [assumption|lia]|]).
      split; [|destruct (fst (fst _)) as [r|];
               [destruct (is_speech_segment r)|]; lia].
      destruct (fst (fst _)) as [r|]; [destruct (is_speech_segment r)|]; lia.
    + rewrite Hbody. unfold well_formed. cbn.
      split; [rewrite Hinit; split; eauto|].
      split; [rewrite Hmodel; split; eauto|].
      repeat (split; [first [assumption|lia]|]). assumption.
  - rewrite Hbody. unfold well_formed. cbn. rewrite Hit.
    repeat (split; [first [assumption|lia]|]). assumption.
Qed.

Lemma well_formed_process_chunk (self : t M Model Iter) chunk clock :
  well_formed self ->
  well_formed (snd (fst (process_chunk time_time self chunk clock))).
Proof.
  intros Hwf. unfold process_chunk.
  destruct (vad_iterator self) eqn:Hit; [|exact Hwf].
  destruct (_validate_audio_chunk chunk); [exact Hwf|].
  unfold _process_chunk_internal.
  destruct (FrameAlignedBuffer.write (frame_buffer self) chunk)
    as [written|] eqn:Hwrite.
  2:{ destruct Hwf as (? & ? & ? & ? & ? & ? & ? & ? & ? & ? & ? & ? & ?).
      unfold well_formed. cbn. repeat (split; [first [assumption|lia]|]).
      assumption. }
  assert (well_formed (set_frame_buffer self written)) as Hwf0.
  { apply write_appends in Hwrite as (Hw & Hcap & Hfit).
    destruct Hwf as (? & ? & ? & ? & ? & ? & ? & Hcapa & ? & ? & ? & ? & ?).
    unfold well_formed. cbn. rewrite Hcap, Hw, length_app.
    rewrite Hcapa in Hfit.
    repeat (split; [first [assumption|lia]|]). assumption. }
  pose proof (frame_loop_invariant time_time well_formed
                well_formed_loop_body
                (length (FrameAlignedBuffer.buffer written))
                (set_frame_buffer self written) [] (S clock) Hwf0) as Hloop.
  destruct (frame_loop _ _ _ _ _) as [rs s c|s c|]; [| |exact Hwf0].
  - destruct Hloop as (? & ? & ? & ? & ? & Hmax & Hwin & ? & ? & ? & ? & ? & ?).
    unfold well_formed, _record_processing_time.
    cbn [fst snd max_processing_times processing_times
         set_total_processing_time_ms set_total_chunks_processed].
    rewrite Hmax.
    case_bool_decide as Hlong; cbn;
      rewrite ?length_drop, ?length_app in *; cbn [length] in *;
      repeat (split; [first [assumption|lia]|]); assumption.
  - destruct Hloop as (? & ? & ? & ? & ? & ? & ? & ? & ? & ? & ? & ? & ?).
    unfold well_formed. cbn. repeat (split; [first [assumption|lia]|]).
    assumption.
Qed.

Lemma well_formed_new (config : Config) (fresh : t M Model Iter) :
  new config = Returned fresh -> well_formed fresh.
Proof.
  unfold new. destruct (_validate_config config); [discriminate|].
  intros [= <-]. unfold well_formed. cbn.
  split; [split; [discriminate|intros [x Hx]; discriminate]|].
  split; [split; intros [x Hx]; discriminate|].
  split; [apply coherent_new|]. split; [apply started_new|].
  split; [eexists; reflexivity|].
  repeat (split; [first [reflexivity|lia]|]). lia.
Qed.

Lemma well_formed_initialize (self : t M Model Iter) loaded :
  well_formed self -> well_formed (snd (initialize self loaded)).
Proof.
  intros Hwf. unfold initialize.
  destruct (is_initialized self) eqn:Hi; [exact Hwf|].
  destruct loaded as [m|]; [|exact Hwf].
  destruct Hwf as (? & ? & ? & ? & ? & ? & ? & ? & ? & ? & ? & ? & ?).
  unfold well_formed. cbn.
  split; [split; eauto|]. split; [split; eauto|].
  repeat (split; [assumption|]). assumption.
Qed.

Lemma well_formed_close (self : t M Model Iter) :
  well_formed self -> well_formed (snd (close self)).
Proof.
  intros (? & ? & ? & ? & ? & ? & ? & ? & ? & ? & ? & ? & ?).
  unfold well_formed. cbn.
  split; [split; [discriminate|intros [x Hx]; discriminate]|].
  split; [split; intros [x Hx]; discriminate|].
  split; [apply coherent_reset|].
  split; [intros c; cbn; discriminate|].
  repeat (split; [first [assumption|lia]|]). assumption.
Qed.

Lemma well_formed_step (call : Session.Call Model) (self : t M Model Iter)
  clock :
  well_formed self -> well_formed (fst (Session.step time_time call self clock)).
Proof.
  intros Hwf. destruct call as [loaded|chunk| | | |sys]; cbn [Session.step fst].
  - apply well_formed_initialize, Hwf.
  - pose proof (well_formed_process_chunk self chunk clock Hwf) as Hp.
    destruct (process_chunk time_time self chunk clock) as [[out s] c].
    exact Hp.
  - apply well_formed_close, Hwf.
  - exact Hwf.
  - destruct Hwf as (? & ? & ? & ? & ? & ? & ? & ? & ? & ? & ? & ? & ?).
    unfold well_formed. cbn.
    repeat (split; [first [assumption|lia]|]). lia.
  - destruct Hwf as (? & ? & Hcoh & Hst & [m Hm] & ? & ? & ? & ? & ? & ? & ? & ?).
    unfold well_formed, set_system_state. cbn. rewrite Hm.
    repeat (split; [first [assumption|lia|eexists; reflexivity]|]).
    assumption.
Qed.

Lemma well_formed_run (calls : list (Session.Call Model))
  (self : t M Model Iter) clock :
  well_formed self -> well_formed (fst (Session.run time_time calls self clock)).
Proof.
  revert self clock.
  induction calls as [|call calls IH]; intros self clock Hwf;
    cbn [Session.run]; [exact Hwf|].
  pose proof (well_formed_step call self clock Hwf) as Hs.
  destruct (Session.step time_time call self clock) as [s c]. apply IH, Hs.
Qed.

End SessionFacts.

(** X11.  Whatever calls were made on a processor, its marks of
    initialization agree: [is_initialized] is set exactly when the iterator
    is there, and the model with it.  So [process_chunk] raises the state
    error, leaving the processor as it is, exactly when [is_initialized] is
    not set. *)
Theorem session_lifecycle_consistent {M Model Iter : Type}
  `{!InterruptionManager M} `{!SileroVad Model Iter} (time_time : nat -> Q)
  (config : Config) (fresh : StreamProcessor.t M Model Iter)
  (calls : list (Session.Call Model)) (clock : nat) :
  StreamProcessor.new config = Returned fresh ->
  let self := fst (Session.run time_time calls fresh clock) in
  (StreamProcessor.is_initialized self = true
   <-> is_Some (StreamProcessor.vad_iterator self))
  /\ (is_Some (StreamProcessor.model self)
      <-> is_Some (StreamProcessor.vad_iterator self))
  /\ (StreamProcessor.is_initialized self = false ->
      forall chunk c,
        StreamProcessor.process_chunk time_time self chunk c
        = (Raised (Build_CascadeError INVALID_STATE HIGH), self, c))
  /\ (StreamProcessor.is_initialized self = true ->
      forall chunk c e self' c',
        StreamProcessor.process_chunk time_time self chunk c
        = (Raised e, self', c') ->
        ~ StateError e).
Proof.
  intros Hnew self.
  destruct (well_formed_run time_time calls fresh clock
              (well_formed_new config fresh Hnew)) as (Hinit & Hmodel & _).
  fold self in Hinit, Hmodel.
  split; [exact Hinit|]. split; [exact Hmodel|]. split.
  - intros Hoff chunk c. unfold StreamProcessor.process_chunk.
    destruct (StreamProcessor.vad_iterator self) as [it|]; [|reflexivity].
    assert (StreamProcessor.is_initialized self = true) by (apply Hinit; eauto).
    congruence.
  - intros Hon chunk c e self' c'. apply Hinit in Hon as [it Hit].
    unfold StreamProcessor.process_chunk. rewrite Hit.
    destruct (_validate_audio_chunk chunk) as [e0|] eqn:Hvalid.
    + intros [= <- _ _]. unfold _validate_audio_chunk in Hvalid.
      repeat case_bool_decide; try discriminate;
        injection Hvalid as <-; intros [=].
    + unfold StreamProcessor._process_chunk_internal.
      destruct (FrameAlignedBuffer.write _ _); [|intros [= <- _ _] [=]].
      destruct (StreamProcessor.frame_loop _ _ _ _ _);
        intros [= <- _ _] [=].
Qed.

Lemma session_lifecycle_consistent_witness :
  exists fresh : StreamProcessor.t SpecManager.t (list VadOutcome)
                                   (list VadOutcome),
    @StreamProcessor.new _ _ _ SpecManager.manager default_config
    = Returned fresh
    /\ let self :=
         fst (@Session.run _ _ _ SpecManager.manager ScriptedVad.oracle ticking
                [Session.Initialize (Some []);
                 Session.ProcessChunk (silence 1024);
                 Session.Close]
                fresh 0) in
       (StreamProcessor.is_initialized self = true
        <-> is_Some (StreamProcessor.vad_iterator self))
       /\ (is_Some (StreamProcessor.model self)
           <-> is_Some (StreamProcessor.vad_iterator self))
       /\ (StreamProcessor.is_initialized self = false ->
           forall chunk c,
             @StreamProcessor.process_chunk _ _ _ SpecManager.manager
               ScriptedVad.oracle ticking self chunk c
             = (Raised (Build_CascadeError INVALID_STATE HIGH), self, c))
       /\ (StreamProcessor.is_initialized self = true ->
           forall chunk c e self' c',
             @StreamProcessor.process_chunk _ _ _ SpecManager.manager
               ScriptedVad.oracle ticking self chunk c
             = (Raised e, self', c') ->
             ~ StateError e).
Proof.
  eexists. split; [reflexivity|].
  apply (@session_lifecycle_consistent _ _ _ SpecManager.manager
           ScriptedVad.oracle ticking default_config).
  reflexivity.
Defined.

(** X12.  Whatever calls were made on a processor, its state machine is
    coherent: a collector is open exactly when the local state is
    [COLLECTING], an open collector holds at least the frame that started
    its segment, and the manager is attached. *)
Theorem session_state_machine_coherent {M Model Iter : Type}
  `{!InterruptionManager M} `{!SileroVad Model Iter} (time_time : nat -> Q)
  (config : Config) (fresh : StreamProcessor.t M Model Iter)
  (calls : list (Session.Call Model)) (clock : nat) :
  StreamProcessor.new config = Returned fresh ->
  let sm :=
    StreamProcessor.state_machine
      (fst (Session.run time_time calls fresh clock)) in
  (VADStateMachine.state sm = VADState.COLLECTING
   <-> is_Some (VADStateMachine.current_collector sm))
  /\ (forall collector,
         VADStateMachine.current_collector sm = Some collector ->
         SpeechCollector.frames collector <> [])
  /\ is_Some (VADStateMachine.interruption_manager sm).
Proof.
  intros Hnew sm.
  destruct (well_formed_run time_time calls fresh clock
              (well_formed_new config fresh Hnew))
    as (_ & _ & Hcoh & Hst & Hmgr & _).
  split; [exact Hcoh|]. split; [exact Hst|exact Hmgr].
Qed.

Lemma session_state_machine_coherent_witness :
  exists fresh : StreamProcessor.t SpecManager.t (list VadOutcome)
                                   (list VadOutcome),
    @StreamProcessor.new _ _ _ SpecManager.manager default_config
    = Returned fresh
    /\ let sm :=
         StreamProcessor.state_machine
           (fst (@Session.run _ _ _ SpecManager.manager ScriptedVad.oracle
                   ticking
                   [Session.Initialize (Some [Returns (start_verdict 0)]);
                    Session.ProcessChunk (silence 2048)]
                   fresh 0)) in
       (VADStateMachine.state sm = VADState.COLLECTING
        <-> is_Some (VADStateMachine.current_collector sm))
       /\ (forall collector,
              VADStateMachine.current_collector sm = Some collector ->
              SpeechCollector.frames collector <> [])
       /\ is_Some (VADStateMachine.interruption_manager sm).
Proof.
  eexists. split; [reflexivity|].
  apply (@session_state_machine_coherent _ _ _ SpecManager.manager
           ScriptedVad.oracle ticking default_config).
  reflexivity.
Defined.

(** X13.  The window of recent processing times never holds more than 100
    entries, however many chunks were processed. *)
Theorem session_latency_window_bounded {M Model Iter : Type}
  `{!InterruptionManager M} `{!SileroVad Model Iter} (time_time : nat -> Q)
  (config : Config) (fresh : StreamProcessor.t M Model Iter)
  (calls : list (Session.Call Model)) (clock : nat) :
  StreamProcessor.new config = Returned fresh ->
  (length (StreamProcessor.processing_times
             (fst (Session.run time_time calls fresh clock))) <= 100)%nat.
Proof.
  intros Hnew.
  destruct (well_formed_run time_time calls fresh clock
              (well_formed_new config fresh Hnew))
    as (_ & _ & _ & _ & _ & _ & Hwin & _).
  exact Hwin.
Qed.

Lemma session_latency_window_bounded_witness :
  exists fresh : StreamProcessor.t SpecManager.t (list VadOutcome)
                                   (list VadOutcome),
    @StreamProcessor.new _ _ _ SpecManager.manager default_config
    = Returned fresh
    /\ (length (StreamProcessor.processing_times
                  (fst (@Session.run _ _ _ SpecManager.manager
                          ScriptedVad.oracle ticking
                          (Session.Initialize (Some [])
                           :: replicate 120 (Session.ProcessChunk []))
                          fresh 0))) <= 100)%nat.
Proof.
  eexists. split; [reflexivity|].
  apply (@session_latency_window_bounded _ _ _ SpecManager.manager
           ScriptedVad.oracle ticking default_config).
  reflexivity.
Defined.

(** X14.  [initialize] either succeeds, and then the processor is marked
    initialized and every further [initialize] is a no-op, whatever the
    loader would give; or it raises the initialization error, which only
    happens on a processor that was not initialized and whose model failed
    to load, and then the processor is as it was and the call can be
    tried again. *)
Theorem initialize_once {M Model Iter : Type}
  `{!InterruptionManager M} `{!SileroVad Model Iter}
  (self : StreamProcessor.t M Model Iter) (loaded : option Model) :
  match StreamProcessor.initialize self loaded with
  | (Returned _, self') =>
      StreamProcessor.is_initialized self' = true
      /\ (StreamProcessor.is_initialized self = false ->
          exists m, loaded = Some m
                    /\ StreamProcessor.vad_iterator self'
                       = Some (VADIterator m (StreamProcessor.config self)))
      /\ forall loaded',
          StreamProcessor.initialize self' loaded' = (Returned tt, self')
  | (Raised e, self') =>
      self' = self /\ error_code e = INITIALIZATION_FAILED
      /\ StreamProcessor.is_initialized self = false /\ loaded = None
  | (Diverged, _) => False
  end.
Proof.
  unfold StreamProcessor.initialize.
  destruct (StreamProcessor.is_initialized self) eqn:Hi.
  - split; [exact Hi|]. split; [discriminate|].
    intros loaded'. rewrite Hi. reflexivity.
  - destruct loaded as [m|]; [|repeat split].
    split; [reflexivity|]. split; [intros _; exists m; split; reflexivity|].
    intros loaded'. reflexivity.
Qed.

(** X15.  [close] is idempotent.  It discards the buffered bytes and the
    segment being collected and takes the processor out of service, while
    the cumulative statistics and the frame counter survive it; only the
    window of recent processing times is emptied. *)
Theorem close_idempotent {M Model Iter : Type}
  `{!InterruptionManager M} `{!SileroVad Model Iter}
  (self : StreamProcessor.t M Model Iter) :
  let closed := snd (StreamProcessor.close self) in
  StreamProcessor.close closed = (Returned tt, closed)
  /\ StreamProcessor.is_initialized closed = false
  /\ StreamProcessor.vad_iterator closed = None
  /\ FrameAlignedBuffer.buffer (StreamProcessor.frame_buffer closed) = []
  /\ VADStateMachine.is_collecting (StreamProcessor.state_machine closed)
     = false
  /\ VADStateMachine.current_collector (StreamProcessor.state_machine closed)
     = None
  /\ StreamProcessor.interruption_manager closed
     = StreamProcessor.interruption_manager self
  /\ StreamProcessor.get_stats closed
     = (let '(stats, warnings) := StreamProcessor.get_stats self in
        (Build_ProcessorStats
           (stats_total_chunks_processed stats)
           (stats_total_processing_time_ms stats)
           (average_processing_time_ms stats) (speech_segments stats)
           (single_frames stats) (speech_ratio stats)
           (throughput_chunks_per_second stats) 0%Q
           (stats_error_count stats) (error_rate stats),
         warnings))
  /\ StreamProcessor.frame_counter closed = StreamProcessor.frame_counter self
  /\ StreamProcessor.processing_times closed = [].
Proof.
  cbv zeta. repeat split.
Qed.

(** X16.  [_validate_audio_chunk] accepts exactly the empty chunk and the
    chunks of even length up to 512 KiB, that bound included.  A chunk
    over the bound is refused for its size whatever its parity; an odd
    chunk within the bound is refused as corrupt. *)
Theorem validate_audio_chunk_spec (chunk : list byte) :
  let size := Z.of_nat (length chunk) in
  (_validate_audio_chunk chunk = None
   <-> size = 0 \/ (size <= 512 * 1024 /\ size mod 2 = 0))
  /\ (_validate_audio_chunk chunk
      = Some (Build_CascadeError INVALID_INPUT HIGH)
      <-> size > 512 * 1024)
  /\ (_validate_audio_chunk chunk
      = Some (Build_CascadeError AUDIO_CORRUPTION HIGH)
      <-> size <= 512 * 1024 /\ size mod 2 = 1).
Proof.
  cbv zeta. unfold _validate_audio_chunk, MAX_CHUNK_SIZE.
  pose proof (Z.mod_pos_bound (Z.of_nat (length chunk)) 2 eq_refl) as Hmod.
  repeat case_bool_decide; repeat split; intros; try discriminate;
    try lia; try (exfalso; lia); auto; try (right; lia).
  exfalso. destruct H0 as [_ H0]. rewrite H in H0. discriminate.
Qed.



(** ** Health warnings, in terms of the counters *)







(** * Streams and files *)

Section StreamFacts.
Context {M Model Iter : Type} `{!InterruptionManager M} `{!SileroVad Model Iter}.
Variable time_time : nat -> Q.

Import StreamProcessor.

(** The loop over the chunks ends normally or with the processing error. *)
Lemma yield_chunks_outcome (chunks : list (list byte)) :
  forall (self : t M Model Iter) clock,
    match snd (fst (fst (yield_chunks time_time self chunks clock))) with
    | Returned _ => True
    | Raised e => e = Build_CascadeError PROCESSING_FAILED HIGH
    | Diverged => False
    end.
Proof.
  induction chunks as [|chunk rest IH]; intros self clock;
    cbn [yield_chunks]; [exact I|].
  pose proof (process_chunk_terminates time_time self chunk clock) as Hterm.
  destruct (process_chunk time_time self chunk clock)
    as [[[results|e|] self'] clock']; cbn [fst snd] in *.
  - specialize (IH self' clock').
    destruct (yield_chunks time_time self' rest clock')
      as [[[yielded outcome] self''] clock'']. exact IH.
  - reflexivity.
  - apply Hterm. reflexivity.
Qed.

(** The loop over a stream cut in two is the loop over the first part
    followed, when that ends normally, by the loop over the second. *)
Lemma yield_chunks_app (before after : list (list byte)) :
  forall (self : t M Model Iter) clock,
    yield_chunks time_time self (before ++ after) clock
    = match yield_chunks time_time self before clock with
      | (yielded, Returned _, self', clock') =>
          let '(yielded', outcome, self'', clock'') :=
            yield_chunks time_time self' after clock' in
          (yielded ++ yielded', outcome, self'', clock'')
      | stopped => stopped
      end.
Proof.
  induction before as [|chunk rest IH]; intros self clock;
    cbn [app yield_chunks].
  - destruct (yield_chunks time_time self after clock) as [[[y o] s] c].
    reflexivity.
  - destruct (process_chunk time_time self chunk clock)
      as [[[results|e|] self'] clock']; [|reflexivity|reflexivity].
    rewrite IH.
    destruct (yield_chunks time_time self' rest clock')
      as [[[y [[]|e|]] s] c]; [|reflexivity|reflexivity].
    destruct (yield_chunks time_time s after c) as [[[y' o'] s'] c'].
    rewrite app_assoc. reflexivity.
Qed.

End StreamFacts.

(** X19.  [process_stream] ends normally or raises.  What it raises has
    code [PROCESSING_FAILED], whatever went wrong with the chunk (an input
    error of [process_chunk] is raised again under that code), except when
    the processor was not initialized and its model fails to load: then the
    initialization error comes through as it is, nothing is yielded and the
    processor is untouched. *)
Theorem process_stream_error_codes {M Model Iter : Type}
  `{!InterruptionManager M} `{!SileroVad Model Iter} (time_time : nat -> Q)
  (self : StreamProcessor.t M Model Iter) (loaded : option Model)
  (audio_stream : list (list byte)) (clock : nat) :
  let '(yielded, outcome, self', clock') :=
    StreamProcessor.process_stream time_time self loaded audio_stream clock in
  match outcome with
  | Returned _ => True
  | Raised e =>
      e = Build_CascadeError PROCESSING_FAILED HIGH
      \/ (e = Build_CascadeError INITIALIZATION_FAILED HIGH
          /\ StreamProcessor.is_initialized self = false /\ loaded = None
          /\ yielded = [] /\ self' = self /\ clock' = clock)
  | Diverged => False
  end.
Proof.
  unfold StreamProcessor.process_stream, StreamProcessor.initialize.
  destruct (StreamProcessor.is_initialized self) eqn:Hi.
  - pose proof (yield_chunks_outcome time_time audio_stream self clock) as Hy.
    destruct (StreamProcessor.yield_chunks time_time self audio_stream clock)
      as [[[yielded [u|e|]] self'] clock']; cbn in Hy; auto.
  - destruct loaded as [m|].
    + pose proof (yield_chunks_outcome time_time audio_stream
                    (StreamProcessor.set_is_initialized
                       (StreamProcessor.set_vad_iterator
                          (StreamProcessor.set_model self (Some m))
                          (Some (VADIterator m (StreamProcessor.config self))))
                       true) clock) as Hy.
      cbn [StreamProcessor.config StreamProcessor.set_model] in *.
      destruct (StreamProcessor.yield_chunks _ _ _ _)
        as [[[yielded [u|e|]] self'] clock']; cbn in Hy; auto.
    + right. repeat split.
Qed.

(** X20.  Results do not depend on where an initialized processor's stream
    is cut: when the stream [before] is processed to its end, processing
    [before ++ after] yields the results of [before] followed by those of
    [after] processed from where [before] left the processor. *)
Theorem process_stream_app {M Model Iter : Type}
  `{!InterruptionManager M} `{!SileroVad Model Iter} (time_time : nat -> Q)
  (self self' : StreamProcessor.t M Model Iter) (loaded : option Model)
  (before after : list (list byte)) (clock clock' : nat)
  (yielded : list CascadeResult) :
  StreamProcessor.is_initialized self = true ->
  StreamProcessor.process_stream time_time self loaded before clock
  = (yielded, Returned tt, self', clock') ->
  StreamProcessor.is_initialized self' = true
  /\ StreamProcessor.process_stream time_time self loaded (before ++ after) clock
     = (let '(yielded', outcome, self'', clock'') :=
          StreamProcessor.process_stream time_time self' loaded after clock' in
        (yielded ++ yielded', outcome, self'', clock'')).
Proof.
  intros Hi. unfold StreamProcessor.process_stream. rewrite Hi.
  intros Hbefore.
  assert (StreamProcessor.is_initialized self' = true) as Hi'.
  { clear after. revert self clock yielded Hi Hbefore.
    induction before as [|chunk rest IH]; intros self clock yielded Hi;
      cbn [StreamProcessor.yield_chunks].
    - intros [= _ <- _]. exact Hi.
    - destruct (StreamProcessor.process_chunk time_time self chunk clock)
        as [[[results|e|] s] c] eqn:Hrun; [|discriminate|discriminate].
      apply process_chunk_returned in Hrun
        as (_ & _ & _ & _ & _ & _ & _ & _ & _ & _ & _ & _ & _ & _ & _ & Hsame).
      destruct (StreamProcessor.yield_chunks time_time s rest c)
        as [[[y o] s'] c'] eqn:Hrest.
      intros [= <- -> <- <-]. eapply IH; [|exact Hrest]. congruence. }
  split; [exact Hi'|]. rewrite Hi'.
  rewrite yield_chunks_app, Hbefore. reflexivity.
Qed.

Lemma process_stream_app_witness :
  let self := scripted_processor [Returns (start_verdict 0)] in
  let run stream p clock :=
    @StreamProcessor.process_stream _ _ _ SpecManager.manager
      ScriptedVad.oracle ticking p None stream clock in
  let first := run [silence 1024] self 0%nat in
  let self' := snd (fst first) in
  StreamProcessor.is_initialized self' = true
  /\ run ([silence 1024] ++ [silence 1000; silence 24]) self 0%nat
     = (let '(yielded', outcome, self'', clock'') :=
          run [silence 1000; silence 24] self' (snd first) in
        (fst (fst (fst first)) ++ yielded', outcome, self'', clock'')).
Proof.
  intros self run first self'.
  apply (@process_stream_app _ _ _ SpecManager.manager ScriptedVad.oracle
           ticking self self' None [silence 1024]
           [silence 1000; silence 24] 0%nat (snd first)
           (fst (fst (fst first)))).
  - reflexivity.
  - vm_compute. reflexivity.
Defined.

Section FileFacts.
Context {A : Type}.
Variable tobytes : list A -> list byte.

Import StreamProcessor.

(** From index [a] on, the loop of [_generate_audio_frames] converts the
    full frames that are left and stops at the first short one. *)
Lemma frames_at_from (audio_data : list A) (frame_size : nat) :
  (0 < frame_size)%nat ->
  forall count a,
    (a <= length audio_data / frame_size)%nat ->
    frames_at tobytes ((fun k => k * frame_size)%nat <$> seq a count)
              audio_data frame_size
    = (fun k => tobytes (take frame_size (drop (k * frame_size) audio_data)))
        <$> seq a (count `min` (length audio_data / frame_size - a)).
Proof.
  intros Hpos count.
  induction count as [|count IH]; intros a Ha; [reflexivity|].
  cbn [seq fmap list_fmap frames_at].
  rewrite length_take, length_drop.
  destruct (decide (a < length audio_data / frame_size)%nat) as [Hlt|Hge].
  - assert ((a + 1) * frame_size <= length audio_data)%nat as Hfull.
    { transitivity (length audio_data / frame_size * frame_size)%nat;
        [apply Nat.mul_le_mono_r; lia|].
      rewrite Nat.mul_comm. apply Nat.Div0.mul_div_le. }
    rewrite bool_decide_eq_false_2 by lia.
    rewrite IH by lia.
    replace (S count `min` (length audio_data / frame_size - a))%nat
      with (S (count `min` (length audio_data / frame_size - S a)))%nat by lia.
    reflexivity.
  - assert (a = length audio_data / frame_size)%nat as -> by lia.
    assert (length audio_data
            < (length audio_data / frame_size + 1) * frame_size)%nat as Hshort.
    { pose proof (Nat.div_mod_eq (length audio_data) frame_size) as Hdm.
      pose proof (Nat.mod_upper_bound (length audio_data) frame_size) as Hmod.
      nia. }
    rewrite bool_decide_eq_true_2 by lia.
    rewrite Nat.sub_diag, Nat.min_0_r. reflexivity.
Qed.

End FileFacts.

(** X21.  [_generate_audio_frames] cuts the samples into consecutive
    frames of [frame_size] samples and converts each: for [n] samples it
    gives [n / frame_size] frames, frame number [k] being the conversion of
    the samples from [k * frame_size] on, and the samples after the last
    full frame are left out.  A frame size of zero raises. *)
Theorem generate_audio_frames_spec {A : Type} (tobytes : list A -> list byte)
  (audio_data : list A) (frame_size : nat) :
  (frame_size = O ->
   StreamProcessor._generate_audio_frames tobytes audio_data frame_size = None)
  /\ ((0 < frame_size)%nat ->
      exists audio_frames,
        StreamProcessor._generate_audio_frames tobytes audio_data frame_size
        = Some audio_frames
        /\ length audio_frames = (length audio_data / frame_size)%nat
        /\ (forall k,
               (k < length audio_data / frame_size)%nat ->
               audio_frames !! k
               = Some (tobytes (take frame_size
                                     (drop (k * frame_size) audio_data)))
               /\ length (take frame_size (drop (k * frame_size) audio_data))
                  = frame_size)).
Proof.
  unfold StreamProcessor._generate_audio_frames, StreamProcessor.range_step.
  split.
  - intros ->. reflexivity.
  - intros Hpos. rewrite bool_decide_eq_false_2 by lia.
    eexists. split; [reflexivity|].
    rewrite (frames_at_from tobytes audio_data frame_size Hpos) by lia.
    rewrite Nat.sub_0_r.
    assert (length audio_data / frame_size
            <= (length audio_data + frame_size - 1) / frame_size)%nat as Hceil
        by (apply Nat.Div0.div_le_mono; lia).
    rewrite Nat.min_r by exact Hceil.
    split; [rewrite length_fmap, length_seq; reflexivity|].
    intros k Hk. split.
    + rewrite list_lookup_fmap, lookup_seq_lt by exact Hk. reflexivity.
    + rewrite length_take, length_drop.
      assert ((k + 1) * frame_size <= length audio_data)%nat.
      { transitivity (length audio_data / frame_size * frame_size)%nat;
          [apply Nat.mul_le_mono_r; lia|].
        rewrite Nat.mul_comm. apply Nat.Div0.mul_div_le. }
      lia.
Qed.

(** Seven samples in frames of three: two frames, the seventh sample is
    left out. *)
Lemma generate_audio_frames_spec_witness :
  let tobytes := fun frame : list Z => flat_map (fun _ => [x00; x00]) frame in
  let audio_data := [1; 2; 3; 4; 5; 6; 7] in
  exists audio_frames,
    StreamProcessor._generate_audio_frames tobytes audio_data 3
    = Some audio_frames
    /\ length audio_frames = (length audio_data / 3)%nat
    /\ (forall k,
           (k < length audio_data / 3)%nat ->
           audio_frames !! k
           = Some (tobytes (take 3 (drop (k * 3) audio_data)))
           /\ length (take 3 (drop (k * 3) audio_data)) = 3%nat).
Proof.
  intros tobytes audio_data.
  apply (proj2 (generate_audio_frames_spec tobytes audio_data 3)). lia.
Defined.

Section FileRunFacts.
Context {M Model Iter : Type} `{!InterruptionManager M} `{!SileroVad Model Iter}.
Variable time_time : nat -> Q.

Import StreamProcessor.

Lemma concat_length_frames (built : list AudioFrame) (n : nat) :
  Forall (fun f => length (audio_data f) = n) built ->
  length (concat (audio_data <$> built)) = (n * length built)%nat.
Proof.
  induction 1 as [|f built Hf _ IH]; cbn [fmap list_fmap concat length];
    [lia|].
  rewrite length_app, Hf. fold (fmap audio_data built). rewrite IH. lia.
Qed.

(** Chunks of exactly one frame each, sent to a processor whose buffer is
    empty: each call builds one frame and leaves the buffer empty. *)
Lemma yield_chunks_whole_frames (chunks : list (list byte)) :
  Forall (fun chunk => length chunk = 1024%nat) chunks ->
  forall (self self' : t M Model Iter) clock clock' yielded,
    FrameAlignedBuffer.buffer (frame_buffer self) = [] ->
    yield_chunks time_time self chunks clock
    = (yielded, Returned tt, self', clock') ->
    frame_counter self' = frame_counter self + Z.of_nat (length chunks)
    /\ total_chunks_processed self'
       = total_chunks_processed self + Z.of_nat (length chunks)
    /\ FrameAlignedBuffer.buffer (frame_buffer self') = [].
Proof.
  induction 1 as [|chunk rest Hchunk _ IH];
    intros self self' clock clock' yielded Hempty; cbn [yield_chunks].
  - intros [= _ <- _]. cbn [length]. split; [lia|]. split; [lia|exact Hempty].
  - destruct (process_chunk time_time self chunk clock)
      as [[[results|e|] s] c] eqn:Hrun; [|discriminate|discriminate].
    apply process_chunk_returned in Hrun
      as (written & built & Hwrite & _ & _ & _ & _ & Hcount & Hbytes & Hsizes
          & Hdrained & _ & _ & Htotal & _).
    apply write_appends in Hwrite as (Hwritten & _).
    rewrite Hempty in Hwritten. cbn [app] in Hwritten.
    rewrite Hwritten in Hbytes.
    unfold FrameAlignedBuffer.has_complete_frame in Hdrained.
    apply bool_decide_eq_false in Hdrained.
    change FrameAlignedBuffer.frame_bytes with 1024%nat in *.
    apply (f_equal length) in Hbytes.
    rewrite length_app, (concat_length_frames built 1024 Hsizes), Hchunk
      in Hbytes.
    assert (length built = 1%nat) as Hone by lia.
    assert (FrameAlignedBuffer.buffer (frame_buffer s) = []) as Hempty'
        by (apply nil_length_inv; lia).
    destruct (yield_chunks time_time s rest c) as [[[y o] s'] c'] eqn:Hrest.
    intros [= <- -> <- <-].
    destruct (IH s s' c c' y Hempty' Hrest) as (H1 & H2 & H3).
    cbn [length]. split; [lia|]. split; [lia|exact H3].
Qed.

End FileRunFacts.

(** X22.  [process_file] ends normally or raises.  A file that does not
    exist, or cannot be read, makes it raise with code [PROCESSING_FAILED]
    before anything is processed: the error raised for the missing file
    inside the [try] is caught there and raised again under that code.
    Only a failed initialization comes through under its own code. *)
Theorem process_file_error_codes {M Model Iter A : Type}
  `{!InterruptionManager M} `{!SileroVad Model Iter} (time_time : nat -> Q)
  (tobytes : list A -> list byte)
  (self : StreamProcessor.t M Model Iter) (loaded : option Model)
  (file_exists : bool) (file_audio : option (list A)) (clock : nat) :
  let '(yielded, outcome, self', clock') :=
    StreamProcessor.process_file time_time tobytes self loaded file_exists
                                 file_audio clock in
  match outcome with
  | Returned _ => file_exists = true /\ is_Some file_audio
  | Raised e =>
      (e = Build_CascadeError PROCESSING_FAILED HIGH
       /\ (file_exists = false \/ file_audio = None ->
           yielded = [] /\ clock' = clock
           /\ self' = snd (StreamProcessor.initialize self loaded)))
      \/ (e = Build_CascadeError INITIALIZATION_FAILED HIGH
          /\ StreamProcessor.is_initialized self = false /\ loaded = None
          /\ yielded = [] /\ self' = self /\ clock' = clock)
  | Diverged => False
  end.
Proof.
  unfold StreamProcessor.process_file.
  assert (forall self0 : StreamProcessor.t M Model Iter,
             let '(yielded, outcome, self', clock') :=
               (if negb file_exists then
                  ([], Raised (Build_CascadeError PROCESSING_FAILED HIGH),
                   self0, clock)
                else
                  match file_audio with
                  | None =>
                      ([], Raised (Build_CascadeError PROCESSING_FAILED HIGH),
                       self0, clock)
                  | Some audio_data =>
                      match StreamProcessor._generate_audio_frames
                              tobytes audio_data 512 with
                      | None =>
                          ([], Raised (Build_CascadeError PROCESSING_FAILED HIGH),
                           self0, clock)
                      | Some audio_frames =>
                          StreamProcessor.yield_chunks
                            time_time self0 audio_frames clock
                      end
                  end) in
             match outcome with
             | Returned _ => file_exists = true /\ is_Some file_audio
             | Raised e =>
                 e = Build_CascadeError PROCESSING_FAILED HIGH
                 /\ (file_exists = false \/ file_audio = None ->
                     yielded = [] /\ clock' = clock /\ self' = self0)
             | Diverged => False
             end) as Hbody.
  { intros self0. destruct file_exists; cbn [negb];
      [|split; [reflexivity|intros _; repeat split]].
    destruct file_audio as [audio_data|];
      [|split; [reflexivity|intros _; repeat split]].
    destruct (StreamProcessor._generate_audio_frames tobytes audio_data 512)
      as [audio_frames|] eqn:Hgen;
      [|unfold StreamProcessor._generate_audio_frames in Hgen; discriminate].
    pose proof (yield_chunks_outcome time_time audio_frames self0 clock) as Hy.
    destruct (StreamProcessor.yield_chunks time_time self0 audio_frames clock)
      as [[[yielded [u|e|]] self'] clock']; cbn in Hy.
    - split; [reflexivity|eexists; reflexivity].
    - split; [exact Hy|]. intros [Hno|Hno]; discriminate.
    - exact Hy. }
  unfold StreamProcessor.initialize.
  destruct (StreamProcessor.is_initialized self) eqn:Hi.
  - specialize (Hbody self).
    destruct (if negb file_exists then _ else _)
      as [[[yielded [u|e|]] self'] clock']; auto.
  - destruct loaded as [m|].
    + match goal with
      | |- context [StreamProcessor.set_is_initialized ?s true] =>
          specialize (Hbody (StreamProcessor.set_is_initialized s true))
      end.
      destruct (if negb file_exists then _ else _)
        as [[[yielded [u|e|]] self'] clock']; auto.
    + right. repeat split.
Qed.

(** X23.  A file of [n] samples read to its end by a processor whose
    buffer is empty gives [n / 512] frames, one per call of
    [process_chunk], numbered after the frames built before; the samples
    after the last full frame are not processed and the buffer is empty
    again at the end. *)
Theorem process_file_numbers_every_frame {M Model Iter A : Type}
  `{!InterruptionManager M} `{!SileroVad Model Iter} (time_time : nat -> Q)
  (tobytes : list A -> list byte)
  (self self' : StreamProcessor.t M Model Iter) (loaded : option Model)
  (samples : list A) (clock clock' : nat) (yielded : list CascadeResult) :
  (forall frame_samples,
      length (tobytes frame_samples) = (2 * length frame_samples)%nat) ->
  FrameAlignedBuffer.buffer (StreamProcessor.frame_buffer self) = [] ->
  StreamProcessor.process_file time_time tobytes self loaded true (Some samples)
                               clock
  = (yielded, Returned tt, self', clock') ->
  StreamProcessor.frame_counter self'
  = StreamProcessor.frame_counter self + Z.of_nat (length samples / 512)
  /\ StreamProcessor.total_chunks_processed self'
     = StreamProcessor.total_chunks_processed self
       + Z.of_nat (length samples / 512)
  /\ FrameAlignedBuffer.buffer (StreamProcessor.frame_buffer self') = [].
Proof.
  intros Hbytes Hempty. unfold StreamProcessor.process_file.
  set (self0 := snd (StreamProcessor.initialize self loaded)).
  assert (StreamProcessor.frame_counter self0 = StreamProcessor.frame_counter self
          /\ StreamProcessor.total_chunks_processed self0
             = StreamProcessor.total_chunks_processed self
          /\ FrameAlignedBuffer.buffer (StreamProcessor.frame_buffer self0) = [])
    as (Hfc & Htc & Hempty0).
  { unfold self0, StreamProcessor.initialize.
    destruct (StreamProcessor.is_initialized self);
      [|destruct loaded]; repeat split; exact Hempty. }
  assert (forall p : StreamProcessor.t M Model Iter,
             (let '(yielded0, outcome, p', c') :=
                match StreamProcessor._generate_audio_frames
                        tobytes samples 512 with
                | None =>
                    ([], Raised (Build_CascadeError PROCESSING_FAILED HIGH),
                     p, clock)
                | Some audio_frames =>
                    StreamProcessor.yield_chunks time_time p audio_frames clock
                end in
              (yielded0, outcome, p', c'))
             = (yielded, Returned tt, self', clock') ->
             FrameAlignedBuffer.buffer (StreamProcessor.frame_buffer p) = [] ->
             StreamProcessor.frame_counter self'
             = StreamProcessor.frame_counter p
               + Z.of_nat (length samples / 512)
             /\ StreamProcessor.total_chunks_processed self'
                = StreamProcessor.total_chunks_processed p
                  + Z.of_nat (length samples / 512)
             /\ FrameAlignedBuffer.buffer (StreamProcessor.frame_buffer self')
                = []) as Hrun.
  { intros p. unfold StreamProcessor._generate_audio_frames,
      StreamProcessor.range_step.
    rewrite bool_decide_eq_false_2 by discriminate.
    rewrite (frames_at_from tobytes samples 512 ltac:(lia)) by lia.
    rewrite Nat.sub_0_r.
    rewrite Nat.min_r by (apply Nat.Div0.div_le_mono; lia).
    set (audio_frames := _ <$> seq 0 (length samples / 512)).
    assert (length audio_frames = (length samples / 512)%nat) as Hn
        by (unfold audio_frames; rewrite length_fmap, length_seq; reflexivity).
    assert (Forall (fun chunk => length chunk = 1024%nat) audio_frames) as Hall.
    { unfold audio_frames. apply Forall_fmap, Forall_forall.
      intros k Hk. apply elem_of_seq in Hk. cbn.
      rewrite Hbytes, length_take, length_drop.
      assert ((k + 1) * 512 <= length samples)%nat.
      { transitivity (length samples / 512 * 512)%nat;
          [apply Nat.mul_le_mono_r; lia|].
        rewrite Nat.mul_comm. apply Nat.Div0.mul_div_le. }
      lia. }
    destruct (StreamProcessor.yield_chunks time_time p audio_frames clock)
      as [[[y o] s] c] eqn:Hy.
    intros [= -> -> -> ->] Hp.
    rewrite <- Hn.
    exact (yield_chunks_whole_frames time_time audio_frames Hall
             p self' clock clock' yielded Hp Hy). }
  unfold StreamProcessor.initialize in *.
  destruct (StreamProcessor.is_initialized self) eqn:Hi; cbn [negb].
  - intros Hfile. apply Hrun; [|exact Hempty].
    destruct (StreamProcessor._generate_audio_frames tobytes samples 512);
      [|exact Hfile].
    destruct (StreamProcessor.yield_chunks _ _ _ _) as [[[? ?] ?] ?].
    exact Hfile.
  - destruct loaded as [m|]; [|discriminate].
    intros Hfile. rewrite <- Hfc, <- Htc. apply Hrun; [|exact Hempty0].
    destruct (StreamProcessor._generate_audio_frames tobytes samples 512);
      [|exact Hfile].
    destruct (StreamProcessor.yield_chunks _ _ _ _) as [[[? ?] ?] ?].
    exact Hfile.
Qed.

Lemma zero_bytes_length (frame : list Z) :
  length (zero_bytes frame) = (2 * length frame)%nat.
Proof.
  induction frame as [|x frame IH]; [reflexivity|].
  cbn [zero_bytes flat_map app length] in *. unfold zero_bytes in IH. lia.
Qed.

(** A file of 1100 samples: two frames, 76 samples left out. *)
Lemma process_file_numbers_every_frame_witness :
  let self := scripted_processor [] in
  let run :=
    @StreamProcessor.process_file _ _ _ SpecManager.manager ScriptedVad.oracle
      ticking Z zero_bytes self None true (Some (replicate 1100 0)) 0 in
  let self' := snd (fst run) in
  StreamProcessor.frame_counter self'
  = StreamProcessor.frame_counter self
    + Z.of_nat (length (replicate 1100 0) / 512)
  /\ StreamProcessor.total_chunks_processed self'
     = StreamProcessor.total_chunks_processed self
       + Z.of_nat (length (replicate 1100 0) / 512)
  /\ FrameAlignedBuffer.buffer (StreamProcessor.frame_buffer self') = [].
Proof.
  intros self run self'.
  apply (@process_file_numbers_every_frame _ _ _ _ SpecManager.manager
           ScriptedVad.oracle ticking zero_bytes self self' None
           (replicate 1100 0) 0%nat (snd run) (fst (fst (fst run)))).
  - exact zero_bytes_length.
  - reflexivity.
  - vm_compute. reflexivity.
Defined.
